(** * Document analysis: upload front end and classification pipeline

    The React components ([DocumentUpload], [DocumentUploader], [App]) are
    embedded from their JavaScript sources: a handler becomes a computation
    in a small monad that threads the component state and the chronological
    list of outside effects (network requests, callback invocations, console
    output) and that can complete normally or by a thrown value.

    The classification-and-routing pipeline (Shared Memory, Classifier, JSON
    and Email agents, Document Processor) is written in Python and is not
    part of the sources at hand; it is modelled from the specification, each
    definition saying so. *)

From stdpp Require Import base option list strings pretty gmap.

Set Warnings "-register-all".

(** ** JavaScript values and completions *)

Module JS.

(** What the embedding leaves to the JavaScript engine: the carrier of
    numbers (IEEE doubles), which of them are falsy (0, -0, NaN), how a
    number prints, and the text of the [TypeError] raised when a property
    is read off [undefined] ([false]) or [null] ([true]) or when a value
    that is not a function is called. *)
Class Engine := {
  number : Type;
  number_truthy : number -> bool;
  number_to_string : number -> string;
  type_error_message : bool -> string -> string;
  not_a_function_message : string -> string
}.

(** A browser [File]: the two attributes the handlers can observe. *)
Record File := { name : string; type : string }.

Section Values.
Context {E : Engine}.

Inductive Value :=
| Undefined
| Null
| Bool (b : bool)
| Number (n : number)
| String (s : string)
| Array (elements : list Value)
| Object (properties : list (string * Value))
| Error (error_name message : string)
| FileObject (f : File).

(** [new Error(msg)] and the engine's [TypeError]. *)
Definition new_Error (msg : string) : Value := Error "Error" msg.
Definition TypeError (msg : string) : Value := Error "TypeError" msg.

(** ToBoolean. *)
Definition truthy (v : Value) : bool :=
  match v with
  | Undefined | Null => false
  | Bool b => b
  | Number n => number_truthy n
  | String s => negb (String.eqb s "")
  | Array _ | Object _ | Error _ _ | FileObject _ => true
  end.

(** [a || b]. *)
Definition or (a b : Value) : Value := if truthy a then a else b.

(** ToString, as [new Error(x)] applies it to its argument. *)
Fixpoint to_string (v : Value) : string :=
  match v with
  | Undefined => "undefined"
  | Null => "null"
  | Bool true => "true"
  | Bool false => "false"
  | Number n => number_to_string n
  | String s => s
  | Array elements =>
      (fix join (l : list Value) : string :=
         let element x :=
           match x with Undefined | Null => "" | _ => to_string x end in
         match l with
         | [] => ""
         | [x] => element x
         | x :: rest => element x +:+ "," +:+ join rest
         end) elements
  | Object _ => "[object Object]"
  | Error error_name message =>
      if String.eqb message "" then error_name
      else if String.eqb error_name "" then message
      else error_name +:+ ": " +:+ message
  | FileObject _ => "[object File]"
  end.

Fixpoint own_property (properties : list (string * Value)) (key : string)
  : Value :=
  match properties with
  | [] => Undefined
  | (k, v) :: rest => if String.eqb k key then v else own_property rest key
  end.

(** Effects a handler has on the world outside its component. *)
Record Request := {
  url : string;
  method : string;
  body : option (list (string * Value))
}.

Inductive Effect :=
| Fetch (request : Request)
| ConsoleError (label : string) (v : Value)
| OnUpload (argument : Value).

Inductive Completion (A : Type) :=
| Normal (a : A)
| Throw (v : Value).
Global Arguments Normal {A} a.
Global Arguments Throw {A} v.

(** A computation over component state [S]. *)
Definition M (S A : Type) : Type :=
  S -> list Effect -> Completion A * S * list Effect.

Definition ret {S A} (a : A) : M S A := fun s t => (Normal a, s, t).

Definition throw {S A} (v : Value) : M S A := fun s t => (Throw v, s, t).

Definition bind {S A B} (m : M S A) (k : A -> M S B) : M S B :=
  fun s t =>
    match m s t with
    | (Normal a, s', t') => k a s' t'
    | (Throw v, s', t') => (Throw v, s', t')
    end.

Definition modify {S} (f : S -> S) : M S unit :=
  fun s t => (Normal tt, f s, t).

Definition emit {S} (e : Effect) : M S unit :=
  fun s t => (Normal tt, s, t ++ [e]).

(** [try { body } catch (err) { handler }]. *)
Definition try_catch {S A} (body : M S A) (handler : Value -> M S A)
  : M S A :=
  fun s t =>
    match body s t with
    | (Normal a, s', t') => (Normal a, s', t')
    | (Throw v, s', t') => handler v s' t'
    end.

(** [try { body } finally { final }]. *)
Definition try_finally {S A} (body : M S A) (final : M S unit) : M S A :=
  fun s t =>
    match body s t with
    | (c, s', t') =>
        match final s' t' with
        | (Normal _, s'', t'') => (c, s'', t'')
        | (Throw v, s'', t'') => (Throw v, s'', t'')
        end
    end.

(** [v.key]: reading a property off [undefined] or [null] throws; the
    own properties of objects, the [message] and [name] of errors and
    the [name] and [type] of files are found; every other read gives
    [undefined] (none of the keys the components read, [type], [error],
    [message], [analysis] and [response], is inherited from a builtin
    prototype). *)
Definition get {S} (v : Value) (key : string) : M S Value :=
  match v with
  | Undefined => throw (TypeError (type_error_message false key))
  | Null => throw (TypeError (type_error_message true key))
  | Object properties => ret (own_property properties key)
  | Error error_name message =>
      if String.eqb key "message" then ret (String message)
      else if String.eqb key "name" then ret (String error_name)
      else ret Undefined
  | FileObject f =>
      if String.eqb key "type" then ret (String (type f))
      else if String.eqb key "name" then ret (String (name f))
      else ret Undefined
  | _ => ret Undefined
  end.

(** [array[0]]. *)
Definition first (files : list File) : Value :=
  match files with
  | [] => Undefined
  | f :: _ => FileObject f
  end.

(** [allowed.includes(v)] on an array of string literals. *)
Definition includes (allowed : list string) (v : Value) : bool :=
  match v with
  | String s => existsb (String.eqb s) allowed
  | _ => false
  end.

(** What the network answers to a request. [fetch] rejects with an
    error object ([TypeError] or an abort [DOMException]), and so does
    [response.json()] ([SyntaxError]) on a body that is not JSON. *)
Inductive Json :=
| Parsed (v : Value)
| Unparsable (error_name message : string).

Record Response := { ok : bool; json : Json }.

Inductive Answer :=
| Rejected (error_name message : string)
| Responded (response : Response).

Definition fetch {S} (network : Request -> Answer) (request : Request)
  : M S Response :=
  bind (emit (Fetch request)) (fun _ =>
  match network request with
  | Rejected error_name message => throw (Error error_name message)
  | Responded response => ret response
  end).

(** Calling a function-valued prop: the call is recorded; the callee
    returns or throws. A prop that was not passed is [undefined]. *)
Definition Callback : Type := Value -> Completion unit.

Definition call {S} (prop : string) (callback : option Callback)
    (argument : Value) : M S unit :=
  match callback with
  | None => throw (TypeError (not_a_function_message prop))
  | Some f =>
      bind (emit (OnUpload argument)) (fun _ =>
      match f argument with
      | Normal _ => ret tt
      | Throw v => throw v
      end)
  end.

Definition response_json {S} (response : Response) : M S Value :=
  match json response with
  | Parsed v => ret v
  | Unparsable error_name message => throw (Error error_name message)
  end.

End Values.

Declare Scope js_scope.
Delimit Scope js_scope with js.
Notation "x <- m ;; k" := (bind m (fun x => k))
(at level 100, m at next level, right associativity) : js_scope.
Notation "m ;; k" := (bind m (fun _ => k))
(at level 100, right associativity) : js_scope.

End JS.

(** ** [components/DocumentUpload] (src/unnamed/part_000): the drop zone
    that posts the file *)

Module DocumentUpload.
Import JS.
Local Open Scope js_scope.

Section Component.
Context {E : Engine}.

(** Line 5. *)
Definition API_BASE_URL : string := "http://localhost:3001".

(** The two [useState] cells of lines 8 and 9; both start as [null]. *)
Record State := { uploadStatus : Value; error : Value }.

Definition initial : State := {| uploadStatus := Null; error := Null |}.

Definition setUploadStatus (v : Value) : M State unit :=
  modify (fun s => {| uploadStatus := v; error := error s |}).

Definition setError (v : Value) : M State unit :=
  modify (fun s => {| uploadStatus := uploadStatus s; error := v |}).

(** Line 19. *)
Definition allowedTypes : list string :=
  ["application/pdf"; "application/json"; "text/plain"].

(** [onDrop], lines 11 to 48: the asynchronous callback handed to
    [useDropzone]. [network] is what [fetch] meets; [onUpload] is the
    prop, [None] when the parent passes none. The early [return] of line
    23 is the end of the first branch. The awaits of lines 29, 35 and 39
    are run through: this is one call from start to end, with no step of
    another call in between ([Drops] below cuts the same code at its
    awaits). *)
Definition onDrop (network : Request -> Answer) (onUpload : option Callback)
    (acceptedFiles : list File) : M State unit :=
  setError Null ;;
  setUploadStatus (String "uploading") ;;
  let formData : list (string * Value) := [] in
  let file := first acceptedFiles in
  file_type <- get file "type" ;;
  if negb (includes allowedTypes file_type) then
    setError
      (String "Invalid file type. Please upload PDF, JSON, or TXT files only.") ;;
    setUploadStatus Null
  else
    let formData := formData ++ [("file", file)] in
    try_catch
      (response <-
         fetch network {| url := API_BASE_URL +:+ "/upload";
                          method := "POST";
                          body := Some formData |} ;;
       (if negb (ok response) then
          errorData <- response_json response ;;
          reason <- get errorData "error" ;;
          throw (new_Error (to_string (or reason (String "Upload failed"))))
        else ret tt) ;;
       data <- response_json response ;;
       setUploadStatus (String "success") ;;
       match onUpload with
       | Some _ => call "onUpload" onUpload data
       | None => ret tt
       end)
      (fun err =>
         message <- get err "message" ;;
         setError
           (or message (String "Failed to upload file. Please try again.")) ;;
         setUploadStatus (String "error")).

End Component.

(** The options handed to [useDropzone] besides [onDrop] (lines 50 to 58
    here, where [maxFiles] is not given). *)
Record DropzoneOptions := {
  accept : list (string * list string);
  maxFiles : option nat;
  multiple : bool
}.

Definition dropzone : DropzoneOptions := {|
  accept := [("application/pdf", [".pdf"]);
             ("application/json", [".json"]);
             ("text/plain", [".txt"])];
  maxFiles := None;
  multiple := false
|}.

End DocumentUpload.

(** ** [DocumentUploader] (src/DocumentUploader.js): the drop zone that
    hands the file to its parent *)

Module DocumentUploader.
Import JS.
Local Open Scope js_scope.

(** Lines 6 to 10. *)
Definition ALLOWED_FILE_TYPES : list (string * list string) :=
  [("application/pdf", [".pdf"]);
   ("application/json", [".json"]);
   ("text/plain", [".txt"])].

(** [onDrop], lines 13 to 17; the component has no state. *)
Definition onDrop {E : Engine} (onUpload : option Callback)
    (acceptedFiles : list File) : M unit unit :=
  if 0 <? length acceptedFiles then
    call "onUpload" onUpload (first acceptedFiles)
  else ret tt.

(** Lines 19 to 24. *)
Definition dropzone : DocumentUpload.DropzoneOptions := {|
  DocumentUpload.accept := ALLOWED_FILE_TYPES;
  DocumentUpload.maxFiles := Some 1;
  DocumentUpload.multiple := false
|}.

End DocumentUploader.

(** ** [App] (src/App.js): the page around the drop zone *)

Module App.
Import JS.
Local Open Scope js_scope.

Section Component.
Context {E : Engine}.

(** Line 18. *)
Definition API_BASE_URL : string := "http://localhost:3001".

(** The five [useState] cells of lines 21 to 25. *)
Record State := {
  uploadStatus : Value;
  loading : bool;
  analysis : Value;
  response : Value;
  error : Value
}.

Definition initial : State := {|
  uploadStatus := Null; loading := false;
  analysis := Null; response := Null; error := Null
|}.

Definition setUploadStatus (v : Value) : M State unit :=
  modify (fun s =>
    {| uploadStatus := v; loading := loading s; analysis := analysis s;
       response := response s; error := error s |}).

Definition setLoading (b : bool) : M State unit :=
  modify (fun s =>
    {| uploadStatus := uploadStatus s; loading := b; analysis := analysis s;
       response := response s; error := error s |}).

Definition setAnalysis (v : Value) : M State unit :=
  modify (fun s =>
    {| uploadStatus := uploadStatus s; loading := loading s; analysis := v;
       response := response s; error := error s |}).

Definition setResponse (v : Value) : M State unit :=
  modify (fun s =>
    {| uploadStatus := uploadStatus s; loading := loading s;
       analysis := analysis s; response := v; error := error s |}).

Definition setError (v : Value) : M State unit :=
  modify (fun s =>
    {| uploadStatus := uploadStatus s; loading := loading s;
       analysis := analysis s; response := response s; error := v |}).

(** [resetState], lines 27 to 32. *)
Definition resetState : M State unit :=
  setUploadStatus Null ;;
  setAnalysis Null ;;
  setResponse Null ;;
  setError Null.

(** [checkBackendHealth], lines 34 to 45. *)
Definition checkBackendHealth (network : Request -> Answer) : M State Value :=
  try_catch
    (response <-
       fetch network {| url := API_BASE_URL +:+ "/health";
                        method := "GET";
                        body := None |} ;;
     if negb (ok response) then
       throw (new_Error "Backend service is not responding properly")
     else ret (Bool true))
    (fun error =>
       emit (ConsoleError "Health check failed:" error) ;;
       throw (new_Error
         "Backend service is not available. Please make sure the backend server is running.")).

(** [handleUpload], lines 47 to 69. *)
Definition handleUpload (data : Value) : M State unit :=
  setLoading true ;;
  resetState ;;
  try_finally
    (try_catch
       (setUploadStatus
          (Object [("type", String "success");
                   ("message",
                    String "Document uploaded and processed successfully!")]) ;;
        analysis <- get data "analysis" ;;
        setAnalysis analysis ;;
        response <- get data "response" ;;
        setResponse response)
       (fun error =>
          emit (ConsoleError "Upload error:" error) ;;
          message <- get error "message" ;;
          let errorMessage :=
            or message
               (String "Error uploading document. Please try again.") in
          setError errorMessage ;;
          setUploadStatus
            (Object [("type", String "error"); ("message", errorMessage)])))
    (setLoading false).

End Component.
End App.

(** ** The classification-and-routing pipeline

    Modelled from the spec: the Python back end (Shared Memory, Classifier
    Agent, JSON Agent, Email Agent, Document Processor) is absent from the
    sources, so each definition below follows a numbered step or a
    contract of the specification, quoted in its comment. *)

Module Model.

(** Modelled from the spec: the [file_type] enumeration, "PDF | JSON | EMAIL
    | UNKNOWN". *)
Inductive FileType := PDF | JSON | EMAIL | UNKNOWN.

(** Modelled from the spec: the ordinal urgency of an email,
    "Low/Medium/High". *)
Inductive Urgency := Low | Medium | High.

(** Modelled from the spec: the header block of an email, "[sender],
    [subject], and any reply/reference identifiers". *)
Record Headers := {
  sender : string;
  subject : string;
  references : list string
}.

(** Modelled from the spec: the error taxonomy of section 7.
    [ValidationIncomplete] is the non-fatal kind: it is never raised, it
    shows in [missing_fields]. *)
Inductive Error :=
| UnsupportedFormat
| MalformedInput
| ValidationIncomplete
| ClassificationUnavailable
| DuplicateKey
| NotFound.

(** Modelled from the spec: the "human-readable reason string" of a failure,
    here the name of its kind. *)
Definition reason (e : Error) : string :=
  match e with
  | UnsupportedFormat => "UnsupportedFormat"
  | MalformedInput => "MalformedInput"
  | ValidationIncomplete => "ValidationIncomplete"
  | ClassificationUnavailable => "ClassificationUnavailable"
  | DuplicateKey => "DuplicateKey"
  | NotFound => "NotFound"
  end.

(** Modelled from the spec: what the specification leaves to tables, options
    and external libraries. [value] is the type of parsed JSON values and
    [confidence] that of capability scores; [detect] resolves a source's
    "declared extension/MIME hint" (unresolved gives [UNKNOWN]);
    [excerpt_length] is the N of "first N characters"; [max_retries] is the
    retry bound; [parse] is the JSON parser (no payload on malformed input);
    [required_fields] is the per-intent schema and [field_name] the
    per-intent normalization table; [extract_headers] is the best-effort
    header extraction and [body] the text after the header block;
    [decode_analysis] reads urgency and summary off a capability label,
    [heuristic] is the keyword fallback; [pdf_agent] tells which of the two
    agents the dispatch table gives for PDF ([true]: the Email Agent). *)
Class Tables := {
  value : Type;
  confidence : Type;
  detect : string -> FileType;
  excerpt_length : nat;
  max_retries : nat;
  parse : string -> option (gmap string value);
  required_fields : string -> list string;
  field_name : string -> string -> string;
  extract_headers : string -> Headers;
  body : string -> string;
  normalize_subject : string -> string;
  decode_analysis : string -> Urgency * string;
  heuristic : string -> Urgency * string;
  pdf_agent : bool
}.

Section Records.
Context {T : Tables}.

(** Modelled from the spec: "Document: [doc_id], [source], [raw_content],
    [file_type]". *)
Record Document := {
  doc_id : nat;
  source : string;
  raw_content : string;
  file_type : FileType
}.

(** Modelled from the spec: "Classification: fields [file_type], [intent],
    [confidence] (optional numeric), [source], [doc_id]". *)
Record Classification := {
  cls_file_type : FileType;
  intent : string;
  cls_confidence : option confidence;
  cls_source : string;
  cls_doc_id : nat
}.

(** Modelled from the spec: the [validation] of a JSONResult, [is_valid] and
    [missing_fields]. *)
Record Validation := { is_valid : bool; missing_fields : list string }.

(** Modelled from the spec: the standardized shape, "([type],
    [standardized_fields] mapping)". *)
Record Standardized := {
  std_type : string;
  standardized_fields : list (string * value)
}.

(** Modelled from the spec: the [analysis] of an EmailResult: the intent,
    the urgency and the summary. *)
Record Analysis := {
  an_intent : string;
  urgency : Urgency;
  summary : string
}.

(** Modelled from the spec: "ProcessingResult: variants [JSONResult
    {standardized_content, validation}] and [EmailResult {headers, analysis,
    thread_id}]". *)
Inductive ProcessingResult :=
| JSONResult (standardized_content : Standardized) (validation : Validation)
| EmailResult (headers : Headers) (analysis : Analysis) (thread_id : nat).

(** Modelled from the spec: a trace event "[{step_name, timestamp,
    payload_summary}]" with its "monotonic sequence number". *)
Record TraceEvent := {
  step_name : string;
  timestamp : nat;
  payload_summary : string;
  seq : nat
}.

(** Modelled from the spec: "MemoryEntry: keyed by [doc_id]; aggregates
    Document, Classification, ProcessingResult(s), and a chronological list
    of trace events". *)
Record MemoryEntry := {
  document : Document;
  classification : option Classification;
  processing_result : option ProcessingResult;
  trace : list TraceEvent
}.

(** Modelled from the spec: "ThreadRecord: groups MemoryEntries whose
    headers indicate the same conversation (matching subject normalized +
    participant set, or an explicit reference/in-reply-to header). Keyed by
    [thread_id]". *)
Record ThreadRecord := {
  thr_id : nat;
  thr_subject : string;
  participants : list string;
  thr_references : list string;
  members : list nat
}.

(** Modelled from the spec: the "explicitly constructed, explicitly passed
    store object" handed to every agent: Shared Memory, the Email Agent's
    thread records, and the wall clock read for trace timestamps. *)
Record World := {
  memory : gmap nat MemoryEntry;
  threads : list ThreadRecord;
  clock : nat
}.

(** Modelled from the spec: the store with its entries replaced. *)
Definition with_memory (m : gmap nat MemoryEntry) (w : World) : World :=
  {| memory := m; threads := threads w; clock := clock w |}.

(** Modelled from the spec: the store with its thread records replaced. *)
Definition with_threads (ts : list ThreadRecord) (w : World) : World :=
  {| memory := memory w; threads := ts; clock := clock w |}.

(** Modelled from the spec: the outcome of a step, a value or an error of
    the taxonomy. *)
Inductive Result (A : Type) :=
| Ok (a : A)
| Err (e : Error).
Global Arguments Ok {A} a.
Global Arguments Err {A} e.

(** Modelled from the spec: a step of the pipeline. It may fail, and it may
    change the store even when it fails ("any partially written Shared
    Memory trace remains"). *)
Definition P (A : Type) : Type := World -> Result A * World.

(** Modelled from the spec: the step that succeeds with a value and leaves
    the store alone. *)
Definition ret {A} (a : A) : P A := fun w => (Ok a, w).

(** Modelled from the spec: the step that fails with an error of the
    taxonomy. *)
Definition fail {A} (e : Error) : P A := fun w => (Err e, w).

(** Modelled from the spec: one step after another; a failure makes the rest
    "abort the pipeline for that document". *)
Definition bind {A B} (m : P A) (k : A -> P B) : P B :=
  fun w =>
    match m w with
    | (Ok a, w') => k a w'
    | (Err e, w') => (Err e, w')
    end.

End Records.

Declare Scope pipeline_scope.
Delimit Scope pipeline_scope with pipeline.
Notation "x <- m ;; k" := (bind m (fun x => k))
  (at level 100, m at next level, right associativity) : pipeline_scope.
Notation "m ;; k" := (bind m (fun _ => k))
  (at level 100, right associativity) : pipeline_scope.

End Model.

(** ** Shared Memory (section 4.1) *)

Module SharedMemory.
Import Model.
Local Open Scope pipeline_scope.

Section Store.
Context {T : Tables}.

(** Modelled from the spec: the two structured fields [update] can replace,
    "[classification] or [processing_result]". *)
Inductive Field :=
| classification_field (c : Classification)
| processing_result_field (r : ProcessingResult).

(** Modelled from the spec: the step name of the trace event an [update]
    appends, the name of the field. *)
Definition field_step (f : Field) : string :=
  match f with
  | classification_field _ => "classification"
  | processing_result_field _ => "processing_result"
  end.

(** Modelled from the spec: the payload summary of the trace event an
    [update] appends: the intent of a classification, the variant of a
    processing result. *)
Definition field_summary (f : Field) : string :=
  match f with
  | classification_field c => intent c
  | processing_result_field (JSONResult _ _) => "JSONResult"
  | processing_result_field (EmailResult _ _ _) => "EmailResult"
  end.

(** Modelled from the spec: "replace-on-write for the structured fields". *)
Definition write (f : Field) (e : MemoryEntry) : MemoryEntry :=
  match f with
  | classification_field c =>
      {| document := document e; classification := Some c;
         processing_result := processing_result e; trace := trace e |}
  | processing_result_field r =>
      {| document := document e; classification := classification e;
         processing_result := Some r; trace := trace e |}
  end.

(** Modelled from the spec: "entries are append-only for the trace list";
    events are kept in arrival order and the sequence number of an event is
    its position. *)
Definition push (step summary : string) (now : nat) (e : MemoryEntry)
  : MemoryEntry :=
  {| document := document e; classification := classification e;
     processing_result := processing_result e;
     trace := trace e ++ [{| step_name := step; timestamp := now;
                             payload_summary := summary;
                             seq := length (trace e) |}] |}.

(** Modelled from the spec: "[create(doc_id, document) -> MemoryEntry];
    fails with [DuplicateKey] if [doc_id] already exists." *)
Definition create (id : nat) (d : Document) : P MemoryEntry :=
  fun w =>
    match memory w !! id with
    | Some _ => (Err DuplicateKey, w)
    | None =>
        let entry := {| document := d; classification := None;
                        processing_result := None; trace := [] |} in
        (Ok entry, with_memory (<[id := entry]> (memory w)) w)
    end.

(** Modelled from the spec: "[get(doc_id) -> MemoryEntry]; fails with
    [NotFound] if absent." *)
Definition get (id : nat) : P MemoryEntry :=
  fun w =>
    match memory w !! id with
    | Some entry => (Ok entry, w)
    | None => (Err NotFound, w)
    end.

(** Modelled from the spec: "[update(doc_id, field, value)] replaces the
    named structured field and appends a trace event; fails with [NotFound]
    if the entry does not exist." *)
Definition update (id : nat) (f : Field) : P unit :=
  fun w =>
    match memory w !! id with
    | Some entry =>
        let entry' :=
          push (field_step f) (field_summary f) (clock w) (write f entry) in
        (Ok tt, with_memory (<[id := entry']> (memory w)) w)
    | None => (Err NotFound, w)
    end.

(** Modelled from the spec: "[append_trace(doc_id, event)] always succeeds
    if the entry exists". *)
Definition append_trace (id : nat) (step summary : string) : P unit :=
  fun w =>
    match memory w !! id with
    | Some entry =>
        (Ok tt,
         with_memory (<[id := push step summary (clock w) entry]> (memory w)) w)
    | None => (Err NotFound, w)
    end.

End Store.
End SharedMemory.

(** ** The external AI capability (section 6) and its bounded retry *)

Module Capability.
Import Model.

Section Infer.
Context {T : Tables}.

(** Modelled from the spec: the purpose of an inference, "enum{intent,
    urgency_summary}". *)
Inductive Purpose := intent_purpose | urgency_summary.

(** Modelled from the spec: the answer of the capability, "[{label: string,
    confidence: float?}]". *)
Record Inference := { label : string; score : option confidence }.

(** Modelled from the spec: the external AI capability, "[infer(text,
    purpose)]". It answers the k-th attempt of a call, or is unavailable for
    it (timeout or transient failure). *)
Definition t : Type := nat -> string -> Purpose -> option Inference.

(** Modelled from the spec: "an explicit bounded-retry wrapper": attempt
    [k], then up to [retries] further ones. The delays between attempts are
    not part of the model. *)
Fixpoint attempt (infer : t) (text : string) (purpose : Purpose)
    (retries k : nat) : option Inference :=
  match infer k text purpose with
  | Some answer => Some answer
  | None =>
      match retries with
      | O => None
      | S retries' => attempt infer text purpose retries' (S k)
      end
  end.

(** Modelled from the spec: a call of the capability under the retry bound
    [max_retries]. *)
Definition with_retries (infer : t) (text : string) (purpose : Purpose)
  : option Inference :=
  attempt infer text purpose max_retries 0.

End Infer.
End Capability.

(** ** Classifier Agent (section 4.2) *)

Module ClassifierAgent.
Import Model.
Local Open Scope pipeline_scope.

Section Agent.
Context {T : Tables}.

(** Modelled from the spec: step 3 of [classify], "full content for
    JSON/email; first N characters / metadata for PDF". *)
Definition excerpt (ft : FileType) (content : string) : string :=
  match ft with
  | PDF => String.substring 0 excerpt_length content
  | _ => content
  end.

(** Modelled from the spec: "[classify(document) -> Classification]", steps
    1 to 5 of section 4.2. *)
Definition classify (infer : Capability.t) (d : Document) : P Classification :=
  let ft := detect (source d) in
  match ft with
  | UNKNOWN => fail UnsupportedFormat
  | _ =>
      match Capability.with_retries infer (excerpt ft (raw_content d))
              Capability.intent_purpose with
      | None => fail ClassificationUnavailable
      | Some answer =>
          let c := {| cls_file_type := ft;
                      intent := Capability.label answer;
                      cls_confidence := Capability.score answer;
                      cls_source := source d;
                      cls_doc_id := doc_id d |} in
          SharedMemory.update (doc_id d) (SharedMemory.classification_field c) ;;
          ret c
      end
  end.

End Agent.
End ClassifierAgent.

(** ** JSON Agent (section 4.3) *)

Module JSONAgent.
Import Model.
Local Open Scope pipeline_scope.

Section Agent.
Context {T : Tables}.

(** Modelled from the spec: step 2 of the JSON Agent, the required fields of
    the intent that the payload lacks. *)
Definition missing (intent : string) (payload : gmap string value)
  : list string :=
  filter (fun f => payload !! f = None) (required_fields intent).

(** Modelled from the spec: step 2 of the JSON Agent, "record them in
    [validation.missing_fields] and set [validation.is_valid = false]". *)
Definition validate (intent : string) (payload : gmap string value)
  : Validation :=
  let absent := missing intent payload in
  {| is_valid := bool_decide (absent = []); missing_fields := absent |}.

(** Modelled from the spec: step 3 of the JSON Agent, the recognized fields
    that are present, under their normalized names. *)
Definition standardize (intent : string) (payload : gmap string value)
  : Standardized :=
  {| std_type := intent;
     standardized_fields :=
       omap (fun f => pair (field_name intent f) <$> payload !! f)
         (required_fields intent) |}.

(** Modelled from the spec: the outcome of steps 2 and 3 on a parsed
    payload. *)
Definition standardize_payload (intent : string)
    (payload : gmap string value) : ProcessingResult :=
  JSONResult (standardize intent payload) (validate intent payload).

(** Modelled from the spec: "[process(document, classification) ->
    ProcessingResult]", steps 1 to 4 of section 4.3. A payload that does not
    parse is recorded as attempted and fails with [MalformedInput]. *)
Definition process (d : Document) (c : Classification) : P ProcessingResult :=
  match parse (raw_content d) with
  | None =>
      SharedMemory.append_trace (doc_id d) "json_agent" "MalformedInput" ;;
      fail MalformedInput
  | Some payload =>
      let r := standardize_payload (intent c) payload in
      SharedMemory.update (doc_id d) (SharedMemory.processing_result_field r) ;;
      ret r
  end.

End Agent.
End JSONAgent.

(** ** Email Agent (section 4.4) *)

Module EmailAgent.
Import Model.
Local Open Scope pipeline_scope.

Section Agent.
Context {T : Tables}.

(** Modelled from the spec: step 2 of the Email Agent, urgency and summary
    from the capability, "or a deterministic heuristic fallback if the
    capability is unavailable". *)
Definition analyse (infer : Capability.t) (c : Classification)
    (content : string) : Analysis :=
  let text := body content in
  let reading :=
    match Capability.with_retries infer text Capability.urgency_summary with
    | Some answer => decode_analysis (Capability.label answer)
    | None => heuristic text
    end in
  {| an_intent := intent c; urgency := reading.1; summary := reading.2 |}.

(** Modelled from the spec: "an explicit reference/in-reply-to header": the
    message carries a reference identifier the thread already holds. *)
Definition linked (h : Headers) (t : ThreadRecord) : bool :=
  existsb (fun r => bool_decide (r ∈ thr_references t)) (references h).

(** Modelled from the spec: when a message belongs to a thread, "matching
    subject normalized + participant set, or an explicit
    reference/in-reply-to header". *)
Definition matches (h : Headers) (t : ThreadRecord) : bool :=
  (String.eqb (normalize_subject (subject h)) (thr_subject t)
   && bool_decide (sender h ∈ participants t))
  || linked h t.

(** Modelled from the spec: a thread is "extended (not replaced) by
    subsequent messages". *)
Definition extend (h : Headers) (id : nat) (t : ThreadRecord) : ThreadRecord :=
  {| thr_id := thr_id t;
     thr_subject := thr_subject t;
     participants :=
       if bool_decide (sender h ∈ participants t) then participants t
       else participants t ++ [sender h];
     thr_references := thr_references t ++ references h;
     members := members t ++ [id] |}.

(** Modelled from the spec: the ThreadRecord "created on first message
    seen". *)
Definition new_thread (tid : nat) (h : Headers) (id : nat) : ThreadRecord :=
  {| thr_id := tid;
     thr_subject := normalize_subject (subject h);
     participants := [sender h];
     thr_references := references h;
     members := [id] |}.

(** Modelled from the spec: "a fresh identifier": one above every identifier
    in use. *)
Definition fresh_thread_id (ts : list ThreadRecord) : nat :=
  foldr (fun t n => Nat.max (S (thr_id t)) n) 0 ts.

(** Modelled from the spec: "search existing ThreadRecords for a match; if
    found, append". The records are searched in creation order. *)
Fixpoint find_thread (h : Headers) (id : nat) (ts : list ThreadRecord)
  : option (nat * list ThreadRecord) :=
  match ts with
  | [] => None
  | t :: rest =>
      if matches h t then Some (thr_id t, extend h id t :: rest)
      else
        match find_thread h id rest with
        | Some (tid, rest') => Some (tid, t :: rest')
        | None => None
        end
  end.

(** Modelled from the spec: step 3 of the Email Agent, "if found, append;
    else create a new ThreadRecord and assign a fresh identifier". *)
Definition resolve_thread (h : Headers) (id : nat) (ts : list ThreadRecord)
  : nat * list ThreadRecord :=
  match find_thread h id ts with
  | Some found => found
  | None =>
      let tid := fresh_thread_id ts in
      (tid, ts ++ [new_thread tid h id])
  end.

(** Modelled from the spec: "[process(document, classification) ->
    ProcessingResult]", steps 1 to 4 of section 4.4. *)
Definition process (infer : Capability.t) (d : Document) (c : Classification)
  : P ProcessingResult :=
  let headers := extract_headers (raw_content d) in
  let analysis := analyse infer c (raw_content d) in
  fun w =>
    let (tid, ts) := resolve_thread headers (doc_id d) (threads w) in
    let r := EmailResult headers analysis tid in
    (SharedMemory.update (doc_id d) (SharedMemory.processing_result_field r) ;;
     ret r) (with_threads ts w).

End Agent.
End EmailAgent.

(** ** Document Processor (section 4.5) *)

Module DocumentProcessor.
Import Model.
Local Open Scope pipeline_scope.

Section Orchestrator.
Context {T : Tables}.

(** Modelled from the spec: the states of a document, "[RECEIVED ->
    CLASSIFIED -> ROUTED -> COMPLETED]" and the terminal failure states
    [REJECTED] and [FAILED]. *)
Inductive Stage := RECEIVED | CLASSIFIED | ROUTED | COMPLETED | REJECTED | FAILED.

(** Modelled from the spec: the two specialized agents. *)
Inductive Agent := json_agent | email_agent.

(** Modelled from the spec: "a static lookup table mapping variant to
    handler". *)
Definition handler (ft : FileType) : option Agent :=
  match ft with
  | JSON => Some json_agent
  | EMAIL => Some email_agent
  | PDF => Some (if pdf_agent then email_agent else json_agent)
  | UNKNOWN => None
  end.

(** Modelled from the spec: the dispatch to the selected agent. *)
Definition run_agent (infer : Capability.t) (a : Agent) (d : Document)
    (c : Classification) : P ProcessingResult :=
  match a with
  | json_agent => JSONAgent.process d c
  | email_agent => EmailAgent.process infer d c
  end.

(** Modelled from the spec: where the pipeline of a document stopped, and
    with what. *)
Record Run := {
  stage : Stage;
  run_doc_id : nat;
  run_classification : option Classification;
  run_result : option ProcessingResult;
  failure : option Error
}.

(** Modelled from the spec: the [status] of an envelope, "[success] or
    [error] with an explanatory message". *)
Inductive Status := success | error (message : string).

(** Modelled from the spec: "the final envelope returned to the caller is
    [{status, classification, processing_result}]". *)
Record Envelope := {
  status : Status;
  env_classification : option Classification;
  env_processing_result : option ProcessingResult
}.

(** Modelled from the spec: "[status] is derived strictly from the state
    machine's terminal state". *)
Definition envelope (r : Run) : Envelope :=
  {| status :=
       match stage r, failure r with
       | COMPLETED, _ => success
       | _, Some e => error (reason e)
       | _, None => error "incomplete"
       end;
     env_classification := run_classification r;
     env_processing_result := run_result r |}.

(** Modelled from the spec: the identifier "generated at ingestion": one
    that no entry of the store has. *)
Definition new_doc_id (w : World) : nat := fresh (dom (memory w)).

(** Modelled from the spec: a run that stopped on an error. *)
Definition stopped (s : Stage) (id : nat) (c : option Classification)
    (e : Error) : Run :=
  {| stage := s; run_doc_id := id; run_classification := c;
     run_result := None; failure := Some e |}.

(** Modelled from the spec: the state machine of section 4.5: the document
    is created, classified, routed to the agent of its type and completed,
    or it ends in [REJECTED] (unsupported format) or [FAILED]. *)
Definition run_document (infer : Capability.t) (content source_path : string)
  : World -> Run * World :=
  fun w =>
    let id := new_doc_id w in
    let d := {| doc_id := id; source := source_path; raw_content := content;
                file_type := detect source_path |} in
    match SharedMemory.create id d w with
    | (Err e, w1) => (stopped FAILED id None e, w1)
    | (Ok _, w1) =>
        match ClassifierAgent.classify infer d w1 with
        | (Err UnsupportedFormat, w2) =>
            (stopped REJECTED id None UnsupportedFormat, w2)
        | (Err e, w2) => (stopped FAILED id None e, w2)
        | (Ok c, w2) =>
            match handler (cls_file_type c) with
            | None => (stopped REJECTED id (Some c) UnsupportedFormat, w2)
            | Some a =>
                match run_agent infer a d c w2 with
                | (Ok r, w3) =>
                    ({| stage := COMPLETED; run_doc_id := id;
                        run_classification := Some c; run_result := Some r;
                        failure := None |}, w3)
                | (Err e, w3) => (stopped FAILED id (Some c) e, w3)
                end
            end
        end
    end.


End Orchestrator.
End DocumentProcessor.

(** ** Vocabulary of the statements and instances for the examples *)

Module Examples.
Import JS.

(** An engine for the examples: integers as numbers, and the message
    texts of V8. *)
Definition engine : Engine := {|
  number := Z;
  number_truthy := fun n => negb (Z.eqb n 0);
  number_to_string := pretty;
  type_error_message := fun null key =>
    "Cannot read properties of " +:+ (if null then "null" else "undefined")
      +:+ " (reading '" +:+ key +:+ "')";
  not_a_function_message := fun prop => prop +:+ " is not a function"
|}.

Definition report_pdf : File :=
  {| name := "report.pdf"; type := "application/pdf" |}.

Definition notes_txt : File :=
  {| name := "notes.txt"; type := "text/plain" |}.

Definition setup_exe : File :=
  {| name := "setup.exe"; type := "application/x-msdownload" |}.

(** A back end that accepts every upload and answers with an analysis. *)
Definition accepting : @Request engine -> @Answer engine :=
  fun _ =>
    Responded {| ok := true;
                 json := Parsed (Object [("analysis", String "Invoice");
                                         ("response", String "stored")]) |}.

(** A back end that refuses every upload with a reason. *)
Definition refusing : @Request engine -> @Answer engine :=
  fun _ =>
    Responded {| ok := false;
                 json := Parsed (Object [("error", String "No file uploaded")]) |}.

(** A parent whose callback returns normally, as an [async] function
    does. *)
Definition parent : @Callback engine := fun _ => Normal tt.

(** Tables for the examples of the pipeline. Sources are told apart by
    their extension; the parser knows the two invoice texts of the
    scenario (their quotes left out); the schema is the one of the
    specification, "Invoice requires [document_id], [value],
    [timestamp]", and field names are kept as they are; the header
    extraction knows a question and the answer to it. *)
Definition ends_with (suffix s : string) : bool :=
  let n := String.length s in
  let k := String.length suffix in
  (k <=? n) && String.eqb (String.substring (n - k) k s) suffix.

Definition detect_by_extension (source : string) : Model.FileType :=
  if ends_with ".pdf" source then Model.PDF
  else if ends_with ".json" source then Model.JSON
  else if ends_with ".txt" source then Model.EMAIL
  else Model.UNKNOWN.

Definition invoice : gmap string string :=
  <["document_id" := "INV-001"]>
    (<["value" := "1000.00"]> (<["timestamp" := "2024-03-20"]> ∅)).

Definition invoice_text : string :=
  "{document_id: INV-001, value: 1000.00, timestamp: 2024-03-20}".

Definition partial_invoice_text : string :=
  "{document_id: INV-001, value: 1000.00}".

Definition question : string :=
  "From: ann@example.com; Subject: Invoice 7; Message-ID: q1; Where is it?".

Definition answer : string :=
  "From: bob@example.com; Subject: Re: Invoice 7; In-Reply-To: q1; Attached.".

Definition question_headers : Model.Headers :=
  {| Model.sender := "ann@example.com";
     Model.subject := "Invoice 7";
     Model.references := ["q1"] |}.

Definition answer_headers : Model.Headers :=
  {| Model.sender := "bob@example.com";
     Model.subject := "Re: Invoice 7";
     Model.references := ["q1"] |}.

Definition strip_reply (subject : string) : string :=
  if String.prefix "Re: " subject
  then String.substring 4 (String.length subject - 4) subject
  else subject.

Definition tables : Model.Tables := {|
  Model.value := string;
  Model.confidence := nat;
  Model.detect := detect_by_extension;
  Model.excerpt_length := 200;
  Model.max_retries := 2;
  Model.parse := fun text =>
    if String.eqb text invoice_text then Some invoice
    else if String.eqb text partial_invoice_text
    then Some (delete "timestamp" invoice)
    else None;
  Model.required_fields := fun intent =>
    if String.eqb intent "Invoice" then ["document_id"; "value"; "timestamp"]
    else [];
  Model.field_name := fun _ f => f;
  Model.extract_headers := fun text =>
    if String.eqb text question then question_headers
    else if String.eqb text answer then answer_headers
    else {| Model.sender := ""; Model.subject := ""; Model.references := [] |};
  Model.body := fun text => text;
  Model.normalize_subject := strip_reply;
  Model.decode_analysis := fun label => (Model.Medium, label);
  Model.heuristic := fun _ => (Model.Low, "");
  Model.pdf_agent := true
|}.

#[local] Existing Instance tables.

(** A capability that labels everything an invoice, with a score or
    without. *)
Definition labelling (score : option nat) : @Capability.t tables :=
  fun _ _ _ =>
    Some {| Capability.label := "Invoice"; Capability.score := score |}.

Definition document (id : nat) (source content : string)
  : Model.Document :=
  {| Model.doc_id := id; Model.source := source;
     Model.raw_content := content;
     Model.file_type := detect_by_extension source |}.

Definition invoice_classification (id : nat) (source : string)
  : @Model.Classification tables :=
  {| Model.cls_file_type := detect_by_extension source;
     Model.intent := "Invoice";
     Model.cls_confidence := None;
     Model.cls_source := source;
     Model.cls_doc_id := id |}.

Definition entry_of (d : Model.Document) : @Model.MemoryEntry tables :=
  {| Model.document := d; Model.classification := None;
     Model.processing_result := None; Model.trace := [] |}.

(** The store at start-up, and one that holds the two messages. *)
Definition empty_world : @Model.World tables :=
  {| Model.memory := ∅; Model.threads := []; Model.clock := 0 |}.

Definition mailbox : @Model.World tables :=
  {| Model.memory :=
       <[0 := entry_of (document 0 "question.txt" question)]>
         (<[1 := entry_of (document 1 "answer.txt" answer)]> ∅);
     Model.threads := [];
     Model.clock := 0 |}.

End Examples.

(** The request the drop handler of [DocumentUpload] builds for a file. *)
Definition upload_request {E : JS.Engine} (file : JS.Value) : JS.Request :=
  {| JS.url := DocumentUpload.API_BASE_URL +:+ "/upload";
     JS.method := "POST";
     JS.body := Some [("file", file)] |}.

(** The probe [checkBackendHealth] sends. *)
Definition health_request {E : JS.Engine} : JS.Request :=
  {| JS.url := App.API_BASE_URL +:+ "/health";
     JS.method := "GET";
     JS.body := None |}.

(** The two objects [handleUpload] stores in [uploadStatus]. *)
Definition success_status {E : JS.Engine} : JS.Value :=
  JS.Object [("type", JS.String "success");
             ("message",
              JS.String "Document uploaded and processed successfully!")].

Definition error_status {E : JS.Engine} (message : JS.Value) : JS.Value :=
  JS.Object [("type", JS.String "error"); ("message", message)].


(** What a handler leaves behind when started in state [s] with nothing
    yet recorded: how it completed, the component state, and its effects
    in order. *)
Definition completion {E : JS.Engine} {S A} (m : JS.M S A) (s : S)
  : JS.Completion A := (m s []).1.1.

Definition final_state {E : JS.Engine} {S A} (m : JS.M S A) (s : S) : S :=
  (m s []).1.2.

Definition effects {E : JS.Engine} {S A} (m : JS.M S A) (s : S)
  : list JS.Effect := (m s []).2.




(** The store [w'] after a run [r] started in [w]: the run's identifier
    was free, the entry filed under it holds the run's records, and every
    other entry is as it was. *)
Definition recorded {T : Model.Tables} (w w' : Model.World)
    (r : DocumentProcessor.Run) : Prop :=
  Model.memory w !! DocumentProcessor.run_doc_id r = None /\
  (forall k, k <> DocumentProcessor.run_doc_id r ->
     Model.memory w' !! k = Model.memory w !! k) /\
  exists entry,
    Model.memory w' !! DocumentProcessor.run_doc_id r = Some entry /\
    Model.doc_id (Model.document entry) = DocumentProcessor.run_doc_id r /\
    Model.classification entry = DocumentProcessor.run_classification r /\
    Model.processing_result entry = DocumentProcessor.run_result r.

(** A run that reached [COMPLETED]. *)
Definition completed {T : Model.Tables} (id : nat)
    (c : Model.Classification) (r : Model.ProcessingResult)
  : DocumentProcessor.Run :=
  {| DocumentProcessor.stage := DocumentProcessor.COMPLETED;
     DocumentProcessor.run_doc_id := id;
     DocumentProcessor.run_classification := Some c;
     DocumentProcessor.run_result := Some r;
     DocumentProcessor.failure := None |}.

(** The run of a document and the thread records after it, read off the
    content, the source, the capability and the thread records alone: the
    statement of what [run_document] decides, which it is proved to
    follow whatever the entries of Shared Memory. *)
Definition verdict {T : Model.Tables} (infer : Capability.t)
    (content source_path : string) (id : nat)
    (ts : list Model.ThreadRecord)
  : DocumentProcessor.Run * list Model.ThreadRecord :=
  let ft := Model.detect source_path in
  match DocumentProcessor.handler ft with
  | None =>
      (DocumentProcessor.stopped DocumentProcessor.REJECTED id None
         Model.UnsupportedFormat, ts)
  | Some agent =>
      match Capability.with_retries infer (ClassifierAgent.excerpt ft content)
              Capability.intent_purpose with
      | None =>
          (DocumentProcessor.stopped DocumentProcessor.FAILED id None
             Model.ClassificationUnavailable, ts)
      | Some answer =>
          let c := {| Model.cls_file_type := ft;
                      Model.intent := Capability.label answer;
                      Model.cls_confidence := Capability.score answer;
                      Model.cls_source := source_path;
                      Model.cls_doc_id := id |} in
          match agent with
          | DocumentProcessor.json_agent =>
              match Model.parse content with
              | None =>
                  (DocumentProcessor.stopped DocumentProcessor.FAILED id
                     (Some c) Model.MalformedInput, ts)
              | Some payload =>
                  (completed id c
                     (JSONAgent.standardize_payload (Capability.label answer)
                        payload), ts)
              end
          | DocumentProcessor.email_agent =>
              let h := Model.extract_headers content in
              let resolved := EmailAgent.resolve_thread h id ts in
              (completed id c
                 (Model.EmailResult h (EmailAgent.analyse infer c content)
                    resolved.1), resolved.2)
          end
      end
  end.

(** ** The rendered trees of the components *)

Module React.
Import JS.

Section Nodes.
Context {E : Engine}.

(** What a component returns: elements with the props spread first (the
    [{...getRootProps()}] of the drop zones), their named props and their
    children; literal text; the number and object literals of [sx]
    props; the value of an embedded expression; a function passed as a
    prop, by its name. *)
Inductive Node :=
| Element (type : string) (spread : option string)
    (props : list (string * Node)) (children : list Node)
| Text (s : string)
| Numeral (n : nat)
| ObjectLiteral (fields : list (string * Node))
| Expression (v : Value)
| Function (name : string).

(** [condition && node]: the condition itself when it is falsy. *)
Definition and_then (condition : Value) (node : Node) : Node :=
  if truthy condition then node else Expression condition.

(** [v === 'literal']. *)
Definition is_string (v : Value) (literal : string) : bool :=
  match v with
  | String s => String.eqb s literal
  | _ => false
  end.

(** [v.key] for a value that is neither [null] nor [undefined], where
    the read does not throw (see [get]). *)
Definition read (v : Value) (key : string) : Value :=
  match v with
  | Object properties => own_property properties key
  | Error error_name message =>
      if String.eqb key "message" then String message
      else if String.eqb key "name" then String error_name
      else Undefined
  | FileObject f =>
      if String.eqb key "type" then String (type f)
      else if String.eqb key "name" then String (name f)
      else Undefined
  | _ => Undefined
  end.

(** A node and everything under it, through props and children. *)
Fixpoint nodes (n : Node) : list Node :=
  n ::
  match n with
  | Element _ _ props children =>
      (fix through_props (l : list (string * Node)) : list Node :=
         match l with
         | [] => []
         | (_, p) :: rest => nodes p ++ through_props rest
         end) props ++
      (fix through (l : list Node) : list Node :=
         match l with
         | [] => []
         | c :: rest => nodes c ++ through rest
         end) children
  | ObjectLiteral fields =>
      (fix through_fields (l : list (string * Node)) : list Node :=
         match l with
         | [] => []
         | (_, p) :: rest => nodes p ++ through_fields rest
         end) fields
  | _ => []
  end.

(** The tree holds an element of the given type. *)
Definition has_element (type : string) (n : Node) : bool :=
  existsb (fun m => match m with
                    | Element t _ _ _ => String.eqb t type
                    | _ => false
                    end) (nodes n).

(** The tree holds the given literal text. *)
Definition has_text (text : string) (n : Node) : bool :=
  existsb (fun m => match m with
                    | Text s => String.eqb s text
                    | _ => false
                    end) (nodes n).

(** The tree holds an element whose [className] is the given string. *)
Definition has_class (class : string) (n : Node) : bool :=
  existsb (fun m => match m with
                    | Element _ _ props _ =>
                        existsb (fun p =>
                                   match p with
                                   | (key, Expression (String c)) =>
                                       String.eqb key "className"
                                       && String.eqb c class
                                   | _ => false
                                   end) props
                    | _ => false
                    end) (nodes n).

(** [null] or [undefined]. *)
Definition nullish (v : Value) : bool :=
  match v with
  | Undefined | Null => true
  | _ => false
  end.

End Nodes.
End React.

(** ** What [DocumentUpload] returns (src/unnamed/part_000, lines 60 to
    86) *)

Module DocumentUploadView.
Import JS React.

(** [isDragActive] comes from [useDropzone]. *)
Definition render {E : Engine} (isDragActive : bool)
    (s : DocumentUpload.State) : Node :=
  let uploadStatus := DocumentUpload.uploadStatus s in
  let error := DocumentUpload.error s in
  Element "div" None [("className", Expression (String "document-upload"))]
    [Element "div" (Some "getRootProps()")
       [("className",
         Expression
           (String ("dropzone " +:+ (if isDragActive then "active" else "")
                      +:+ " " +:+ to_string uploadStatus)))]
       [Element "input" (Some "getInputProps()") [] [];
        if isDragActive then
          Element "p" None [] [Text "Drop the file here..."]
        else
          Element "div" None
            [("className", Expression (String "upload-content"))]
            [Element "i" None
               [("className", Expression (String "fas fa-cloud-upload-alt"))]
               [];
             Element "p" None []
               [Text "Drag and drop a file here, or click to select"];
             Element "p" None
               [("className", Expression (String "file-types"))]
               [Text "Supported formats: PDF, JSON, TXT"]]];
     and_then error
       (Element "div" None
          [("className", Expression (String "error-message"))]
          [Expression error]);
     and_then (Bool (is_string uploadStatus "success"))
       (Element "div" None
          [("className", Expression (String "success-message"))]
          [Text "File uploaded successfully!"])].

End DocumentUploadView.

(** ** What [App] returns (src/App.js, lines 71 to 147) *)

Module AppView.
Import JS React.

Definition render {E : Engine} (s : App.State) : Node :=
  let uploadStatus := App.uploadStatus s in
  let error := App.error s in
  let analysis := App.analysis s in
  let response := App.response s in
  let mt2 := [("sx", ObjectLiteral [("mt", Numeral 2)])] in
  let pre_wrap :=
    [("style", ObjectLiteral [("whiteSpace", Expression (String "pre-wrap"))])]
  in
  let summary title :=
    Element "AccordionSummary" None
      [("expandIcon", Element "ExpandMoreIcon" None [] [])]
      [Element "Typography" None [] [Text title]] in
  Element "Container" None [("maxWidth", Expression (String "md"))]
    [Element "Box" None [("sx", ObjectLiteral [("my", Numeral 4)])]
       [Element "Typography" None
          [("variant", Expression (String "h3"));
           ("component", Expression (String "h1"));
           ("gutterBottom", Expression (Bool true));
           ("align", Expression (String "center"))]
          [Text "Document Upload System"];
        Element "Typography" None
          [("variant", Expression (String "h6"));
           ("gutterBottom", Expression (Bool true));
           ("align", Expression (String "center"));
           ("color", Expression (String "text.secondary"))]
          [Text "Upload your documents for processing with Perplexity"];
        Element "Paper" None
          [("elevation", Numeral 3);
           ("sx", ObjectLiteral [("p", Numeral 4); ("mt", Numeral 4)])]
          [Element "DocumentUpload" None
             [("onUpload", Function "handleUpload")] [];
           and_then (Bool (App.loading s))
             (Element "Box" None
                [("sx",
                  ObjectLiteral
                    [("display", Expression (String "flex"));
                     ("justifyContent", Expression (String "center"));
                     ("mt", Numeral 2)])]
                [Element "CircularProgress" None [] []]);
           and_then uploadStatus
             (Element "Alert" None
                [("severity", Expression (read uploadStatus "type"));
                 ("sx", ObjectLiteral [("mt", Numeral 2)]);
                 ("action",
                  and_then (Bool (is_string (read uploadStatus "type") "error"))
                    (Element "Button" None
                       [("color", Expression (String "inherit"));
                        ("size", Expression (String "small"));
                        ("startIcon", Element "RefreshIcon" None [] []);
                        ("onClick", Function "resetState")]
                       [Text "Try Again"]))]
                [Expression (read uploadStatus "message")]);
           and_then error
             (Element "Alert" None
                [("severity", Expression (String "error"));
                 ("sx", ObjectLiteral [("mt", Numeral 2)])]
                [Element "Typography" None
                   [("variant", Expression (String "body2"))]
                   [Text "Error Details: "; Expression error]]);
           and_then analysis
             (Element "Accordion" None mt2
                [summary "Document Analysis";
                 Element "AccordionDetails" None []
                   [Element "Typography" None pre_wrap
                      [Expression analysis]]]);
           and_then response
             (Element "Accordion" None mt2
                [summary "Processed Response";
                 Element "AccordionDetails" None []
                   [Element "Typography" None pre_wrap
                      [Expression response]]])]]].

End AppView.

(** ** The page: [<DocumentUpload onUpload={handleUpload} />] (src/App.js,
    line 82) *)

Module Page.
Import JS.

Section Wiring.
Context {E : Engine}.

(** [handleUpload] as the [onUpload] prop: an [async] function returns a
    promise to its caller and never throws into it. *)
Definition onUpload : Callback := fun _ => Normal tt.

Record State := { upload : DocumentUpload.State; app : App.State }.

(** The calls of [onUpload] recorded by the drop handler reach
    [handleUpload], which runs to its end within the call (it awaits
    nothing) on the state of [App]; the two components share no state, so
    the calls are replayed on [App] in the order of the record, what
    [handleUpload] logs coming right after the call. *)
Fixpoint deliver (record : list Effect) (a : App.State) (seen : list Effect)
  : App.State * list Effect :=
  match record with
  | [] => (a, seen)
  | OnUpload data :: rest =>
      let '(_, a', seen') :=
        App.handleUpload data a (seen ++ [OnUpload data]) in
      deliver rest a' seen'
  | e :: rest => deliver rest a (seen ++ [e])
  end.

(** A drop on the page. *)
Definition drop (network : Request -> Answer) (acceptedFiles : list File)
    (p : State) : Completion unit * State * list Effect :=
  let '(c, s', record) :=
    DocumentUpload.onDrop network (Some onUpload) acceptedFiles (upload p) []
  in
  let '(a', seen) := deliver record (app p) [] in
  (c, {| upload := s'; app := a' |}, seen).

End Wiring.
End Page.

(** ** [DocumentUpload] with several drops under way (src/unnamed/part_000,
    lines 11 to 48)

    [onDrop] is an [async] function: a call runs up to its first [await]
    and returns to the browser, and goes on when the awaited promise
    settles. While the response of line 29 or the body of lines 35 and 39
    is awaited the drop zone stays enabled, so other calls of [onDrop] can
    start and take their own steps in between, all of them on the same two
    state cells. [DocumentUpload.onDrop] is one call run from start to end
    with nothing in between; here the same code is cut at its awaits. *)

Module Drops.
Import JS.
Local Open Scope js_scope.

Section Steps.
Context {E : Engine}.
Variable network : Request -> Answer.
Variable onUpload : option Callback.

(** Where a call of [onDrop] waits: for the response to its request
    (line 29), for the body of a response that is not ok (line 35), for
    the body of an ok response (line 39). *)
Inductive Pending :=
| AwaitResponse (request : Request)
| AwaitErrorBody (response : Response)
| AwaitBody (response : Response).

(** Lines 44 to 47: the [catch] clause. *)
Definition catch (err : Value) : M DocumentUpload.State unit :=
  message <- get err "message" ;;
  DocumentUpload.setError
    (or message (String "Failed to upload file. Please try again.")) ;;
  DocumentUpload.setUploadStatus (String "error").

(** Lines 12 to 29: from the call to the [fetch] it awaits, or to the
    early [return] of line 23. The request is sent here; its answer is
    met when the call goes on. *)
Definition begin (acceptedFiles : list File)
  : M DocumentUpload.State (option Pending) :=
  DocumentUpload.setError Null ;;
  DocumentUpload.setUploadStatus (String "uploading") ;;
  let formData : list (string * Value) := [] in
  let file := first acceptedFiles in
  file_type <- get file "type" ;;
  if negb (includes DocumentUpload.allowedTypes file_type) then
    DocumentUpload.setError
      (String "Invalid file type. Please upload PDF, JSON, or TXT files only.") ;;
    DocumentUpload.setUploadStatus Null ;;
    ret None
  else
    let formData := formData ++ [("file", file)] in
    let request := {| url := DocumentUpload.API_BASE_URL +:+ "/upload";
                      method := "POST";
                      body := Some formData |} in
    emit (Fetch request) ;;
    ret (Some (AwaitResponse request)).

(** From one [await] to the next, or to the end of the call: lines 29 to
    39 once the response is there, lines 35 and 36 once the body of a
    response that is not ok is there, lines 39 to 43 once the body of an
    ok response is there; each inside the [try] of line 28. *)
Definition resume (p : Pending) : M DocumentUpload.State (option Pending) :=
  match p with
  | AwaitResponse request =>
      match network request with
      | Rejected error_name message =>
          catch (Error error_name message) ;; ret None
      | Responded response =>
          if negb (ok response) then ret (Some (AwaitErrorBody response))
          else ret (Some (AwaitBody response))
      end
  | AwaitErrorBody response =>
      try_catch
        (errorData <- response_json response ;;
         reason <- get errorData "error" ;;
         throw (new_Error (to_string (or reason (String "Upload failed")))))
        catch ;;
      ret None
  | AwaitBody response =>
      try_catch
        (data <- response_json response ;;
         DocumentUpload.setUploadStatus (String "success") ;;
         match onUpload with
         | Some _ => call "onUpload" onUpload data
         | None => ret tt
         end)
        catch ;;
      ret None
  end.

(** A call that goes on as soon as it can. *)
Definition proceed (p : option Pending)
  : M DocumentUpload.State (option Pending) :=
  match p with
  | Some k => resume k
  | None => ret None
  end.

(** One call with nothing in between: it waits at most twice. *)
Definition uninterrupted (acceptedFiles : list File)
  : M DocumentUpload.State unit :=
  p <- begin acceptedFiles ;;
  p <- proceed p ;;
  p <- proceed p ;;
  ret tt.

(** The drop zone between two steps: the two state cells, the calls that
    wait, oldest first, and what has been sent, called and logged so
    far. *)
Record Page := {
  state : DocumentUpload.State;
  waiting : list Pending;
  seen : list Effect
}.

Definition opening : Page :=
  {| state := DocumentUpload.initial; waiting := []; seen := [] |}.

(** What happens next: the user drops files, which starts a call, or
    what the [i]-th waiting call awaits settles, and that call goes on. A
    call that ends, normally or by a throw (an unhandled rejection of its
    promise), waits no more. *)
Inductive Event :=
| Dropped (acceptedFiles : list File)
| Settled (i : nat).

Definition still_waiting (c : Completion (option Pending)) : list Pending :=
  match c with
  | Normal (Some k) => [k]
  | _ => []
  end.

Definition perform (e : Event) (p : Page) : Page :=
  match e with
  | Dropped acceptedFiles =>
      let '(c, s, t) := begin acceptedFiles (state p) (seen p) in
      {| state := s; waiting := waiting p ++ still_waiting c; seen := t |}
  | Settled i =>
      match waiting p !! i with
      | None => p
      | Some k =>
          let '(c, s, t) := resume k (state p) (seen p) in
          {| state := s;
             waiting :=
               take i (waiting p) ++ still_waiting c ++ drop (S i) (waiting p);
             seen := t |}
      end
  end.

Definition after (events : list Event) (p : Page) : Page :=
  foldl (fun p e => perform e p) p events.

(** A request that was answered ok with a body that parses. *)
Definition went_through (request : Request) : Prop :=
  exists response data,
    network request = Responded response /\ ok response = true /\
    json response = Parsed data.

(** What a waiting call has behind it: the request it sent, and for the
    body of an ok response the request that was so answered. *)
Definition backed (t : list Effect) (k : Pending) : Prop :=
  match k with
  | AwaitResponse request => Fetch request ∈ t
  | AwaitErrorBody response => True
  | AwaitBody response =>
      exists request,
        Fetch request ∈ t /\ network request = Responded response /\
        ok response = true
  end.

(** What holds of the drop zone between any two steps. *)
Definition consistent (p : Page) : Prop :=
  (DocumentUpload.uploadStatus (state p) = Null \/
   DocumentUpload.uploadStatus (state p) = String "uploading" \/
   DocumentUpload.uploadStatus (state p) = String "success" \/
   DocumentUpload.uploadStatus (state p) = String "error") /\
  (DocumentUpload.uploadStatus (state p) = String "error" ->
   truthy (DocumentUpload.error (state p)) = true) /\
  (DocumentUpload.error (state p) = Null \/
   truthy (DocumentUpload.error (state p)) = true) /\
  (DocumentUpload.uploadStatus (state p) = String "success" ->
   exists request, Fetch request ∈ seen p /\ went_through request) /\
  (forall k, k ∈ waiting p -> backed (seen p) k).

End Steps.
End Drops.

(** ** More instances for the examples *)

Module MoreExamples.
Import JS Examples.

(** A back end that answers ok with the JSON body [null]. *)
Definition answering_null : @Request engine -> @Answer engine :=
  fun _ => Responded {| ok := true; json := Parsed Null |}.

(** A parent whose callback throws an error. *)
Definition failing_parent : @Callback engine :=
  fun _ => Throw (Error "Error" "Cannot show the analysis").

(** The page at start-up. *)
Definition start : @Page.State engine :=
  {| Page.upload := DocumentUpload.initial; Page.app := App.initial |}.

End MoreExamples.
(** ** Runs of the pipeline in the life of one store *)





(** ** More instances for the examples of the pipeline *)

Module Archive.
Import Model Examples.
#[local] Existing Instance tables.










End Archive.

(** * Properties of the upload front end *)

Section FrontEnd.
Context {E : JS.Engine}.
Import JS.

Ltac run :=
  cbv beta iota zeta delta
    [completion final_state effects
     DocumentUpload.onDrop DocumentUpload.setError
     DocumentUpload.setUploadStatus DocumentUpload.error
     DocumentUpload.uploadStatus DocumentUploader.onDrop
     App.handleUpload App.checkBackendHealth App.resetState
     App.setUploadStatus App.setLoading App.setAnalysis App.setResponse
     App.setError App.uploadStatus App.loading App.analysis App.response
     App.error
     bind modify get throw ret emit fetch try_catch try_finally first call
     response_json new_Error TypeError json ok app fst snd negb
     String.eqb Ascii.eqb Bool.eqb Nat.ltb Nat.leb Datatypes.length
     upload_request health_request success_status error_status].

Ltac crunch :=
  repeat (run;
    match goal with
    | |- context [match ?a with Rejected _ _ => _ | Responded _ => _ end] =>
        destruct a as [? ?|[[] ?]] eqn:?
    | |- context [match ?j with Parsed _ => _ | Unparsable _ _ => _ end] =>
        destruct j eqn:?
    | |- context [match ?v with Undefined => _ | _ => _ end] =>
        destruct v eqn:?
    | |- context [match ?c with Some _ => _ | None => _ end] =>
        destruct c eqn:?
    | |- context [match ?c with Normal _ => _ | Throw _ => _ end] =>
        destruct c eqn:?
    end);
  run.

Ltac members :=
  unfold not; intros; rewrite ?elem_of_cons, ?elem_of_nil in *;
  intuition (try discriminate; simplify_eq; eauto).

(** [message || fallback] is a non-empty string when the fallback is. *)
Lemma or_string_message (m fallback : string) :
  fallback <> "" ->
  exists msg, or (String m) (String fallback) = String msg /\ msg <> "".
Proof.
  intros Hf. unfold or, truthy.
  destruct (String.eqb_spec m "") as [->|Hm]; simpl; eauto.
Qed.



(** Every request of the drop handler is the upload of the first accepted
    file. *)
Lemma onDrop_requests network onUpload acceptedFiles s request :
  Fetch request ∈ effects (DocumentUpload.onDrop network onUpload acceptedFiles) s ->
  exists f, head acceptedFiles = Some f /\
            includes DocumentUpload.allowedTypes (String (type f)) = true /\
            request = upload_request (FileObject f).
Proof.
  destruct acceptedFiles as [|f rest]; run.
  - members.
  - destruct (includes DocumentUpload.allowedTypes (String (type f))) eqn:Hin.
    + crunch; members.
    + run. members.
Qed.

(** C9: every upload request the drop handler of [DocumentUpload] builds
    carries a form with exactly one entry, the first element of
    [acceptedFiles] under the key [file], however many files were dropped;
    the drop zone is configured with [multiple: false]; and the drop
    handler of [DocumentUploader] hands its parent the first element
    only. *)
Theorem upload_request_has_one_file network onUpload acceptedFiles s :
  DocumentUpload.multiple DocumentUpload.dropzone = false /\
  DocumentUpload.multiple DocumentUploader.dropzone = false /\
  (forall request,
     Fetch request ∈
       effects (DocumentUpload.onDrop network onUpload acceptedFiles) s ->
     exists f, head acceptedFiles = Some f /\
               body request = Some [("file", FileObject f)]) /\
  (forall v,
     OnUpload v ∈ effects (DocumentUploader.onDrop onUpload acceptedFiles) tt ->
     exists f, head acceptedFiles = Some f /\ v = FileObject f).
Proof.
  split; [reflexivity|]. split; [reflexivity|]. split.
  - intros request H.
    destruct (onDrop_requests _ _ _ _ _ H) as (f & Hf & _ & ->). eauto.
  - intros v. destruct acceptedFiles as [|f rest]; run; [members|].
    crunch; members.
Qed.

(** C10: when the upload request is rejected or answered with a response
    that is not ok, the drop handler ends with [error] set to a non-empty
    message and [uploadStatus] set to ['error'], and [onUpload] has not
    been invoked; [onUpload] is invoked only after an ok response, with
    the body parsed from it. *)
Theorem upload_failure_is_reported network onUpload acceptedFiles s :
  let handler := DocumentUpload.onDrop network onUpload acceptedFiles in
  (forall request,
     Fetch request ∈ effects handler s ->
     match network request with
     | Rejected _ _ => True
     | Responded response => ok response = false
     end ->
     (exists msg, DocumentUpload.error (final_state handler s) = String msg /\
                  msg <> "") /\
     DocumentUpload.uploadStatus (final_state handler s) = String "error" /\
     forall data, OnUpload data ∉ effects handler s) /\
  (forall data,
     OnUpload data ∈ effects handler s ->
     exists request response,
       Fetch request ∈ effects handler s /\
       network request = Responded response /\
       ok response = true /\ json response = Parsed data).
Proof.
  intros handler. subst handler. split.
  - intros request Hreq Hbad.
    destruct (onDrop_requests _ _ _ _ _ Hreq) as (f & Hf & Hin & ->).
    destruct acceptedFiles as [|f' rest]; [discriminate|].
    simpl in Hf. injection Hf as ->.
    clear Hreq. unfold upload_request in Hbad. revert Hbad. run. rewrite Hin.
    assert (Hne : "Failed to upload file. Please try again." <> "")
      by discriminate.
    crunch; intros Hbad; try discriminate;
      (split; [apply or_string_message, Hne | split; [reflexivity|members]]).
  - intros data. destruct acceptedFiles as [|f rest]; run; [members|].
    destruct (includes DocumentUpload.allowedTypes (String (type f)));
      [|run; members].
    crunch; members;
      eexists _, _; (split; [left; reflexivity|]); split; eauto.
Qed.



(** C8, as the code has it: called with anything but [null] and
    [undefined], [handleUpload] completes with [uploadStatus] the success
    object, [loading] false and no error, and its catch branch is not
    entered (nothing is logged). Called with [null] or [undefined], the
    read of [data.analysis] throws, the catch branch runs, and the handler
    completes with [uploadStatus] the error object carrying the message,
    [loading] false all the same. *)
Theorem handleUpload_outcome data s :
  let s' := final_state (App.handleUpload data) s in
  completion (App.handleUpload data) s = Normal tt /\
  App.loading s' = false /\
  (data <> Undefined -> data <> Null ->
   App.uploadStatus s' = success_status /\
   App.error s' = Null /\
   effects (App.handleUpload data) s = []) /\
  (data = Undefined \/ data = Null ->
   exists msg,
     msg <> "" /\
     App.uploadStatus s' = error_status (String msg) /\
     App.error s' = String msg /\
     exists thrown,
       effects (App.handleUpload data) s =
         [ConsoleError "Upload error:" thrown]).
Proof.
  assert (Hne : "Error uploading document. Please try again." <> "")
    by discriminate.
  intros s'. subst s'. repeat split.
  - destruct data; crunch; reflexivity.
  - destruct data; crunch; reflexivity.
  - destruct data; try congruence; crunch; reflexivity.
  - destruct data; try congruence; crunch; reflexivity.
  - destruct data; try congruence; crunch; reflexivity.
  - intros [-> | ->]; run;
      match goal with
      | |- context [or (String ?m) (String ?d)] =>
          destruct (or_string_message m d Hne) as (msg & -> & Hmsg)
      end; eauto 10.
Qed.

End FrontEnd.

(** * Properties of the pipeline *)

Section SharedMemoryFacts.
Context {T : Model.Tables}.
Import Model.

(** [create] tells a taken identifier from a free one. *)
Lemma create_taken id d w entry :
  memory w !! id = Some entry -> SharedMemory.create id d w = (Err DuplicateKey, w).
Proof. intros H. unfold SharedMemory.create. by rewrite H. Qed.

Lemma create_free id d w :
  memory w !! id = None ->
  SharedMemory.create id d w =
    (Ok {| document := d; classification := None;
           processing_result := None; trace := [] |},
     with_memory
       (<[id := {| document := d; classification := None;
                   processing_result := None; trace := [] |}]> (memory w)) w).
Proof. intros H. unfold SharedMemory.create. by rewrite H. Qed.

Lemma get_present id w entry :
  memory w !! id = Some entry -> SharedMemory.get id w = (Ok entry, w).
Proof. intros H. unfold SharedMemory.get. by rewrite H. Qed.

Lemma get_absent id w :
  memory w !! id = None -> SharedMemory.get id w = (Err NotFound, w).
Proof. intros H. unfold SharedMemory.get. by rewrite H. Qed.

Lemma update_present id f w entry :
  memory w !! id = Some entry ->
  SharedMemory.update id f w =
    (Ok tt,
     with_memory
       (<[id := SharedMemory.push (SharedMemory.field_step f)
                  (SharedMemory.field_summary f) (clock w)
                  (SharedMemory.write f entry)]> (memory w)) w).
Proof. intros H. unfold SharedMemory.update. by rewrite H. Qed.

Lemma update_absent id f w :
  memory w !! id = None -> SharedMemory.update id f w = (Err NotFound, w).
Proof. intros H. unfold SharedMemory.update. by rewrite H. Qed.

Lemma append_trace_absent id step summary w :
  memory w !! id = None ->
  SharedMemory.append_trace id step summary w = (Err NotFound, w).
Proof. intros H. unfold SharedMemory.append_trace. by rewrite H. Qed.

(** A failing step fails the steps chained after it. *)
Lemma bind_err {A B} (m : P A) (k : A -> P B) w e w' :
  m w = (Err e, w') -> bind m k w = (Err e, w').
Proof. intros H. unfold bind. by rewrite H. Qed.

Lemma bind_ok {A B} (m : P A) (k : A -> P B) w a w' :
  m w = (Ok a, w') -> bind m k w = k a w'.
Proof. intros H. unfold bind. by rewrite H. Qed.

(** The agents do not swallow a missing entry. *)
Lemma classify_absent infer d w answer :
  detect (source d) <> UNKNOWN ->
  Capability.with_retries infer
    (ClassifierAgent.excerpt (detect (source d)) (raw_content d))
    Capability.intent_purpose = Some answer ->
  memory w !! doc_id d = None ->
  ClassifierAgent.classify infer d w = (Err NotFound, w).
Proof.
  intros Hft Hans Habs. unfold ClassifierAgent.classify.
  destruct (detect (source d)); try congruence;
    rewrite Hans; apply bind_err, update_absent, Habs.
Qed.

Lemma json_process_absent d c w :
  memory w !! doc_id d = None ->
  JSONAgent.process d c w = (Err NotFound, w).
Proof.
  intros Habs. unfold JSONAgent.process.
  destruct (parse (raw_content d)).
  - apply bind_err, update_absent, Habs.
  - apply bind_err, append_trace_absent, Habs.
Qed.

Lemma email_process_absent infer d c w :
  memory w !! doc_id d = None ->
  (EmailAgent.process infer d c w).1 = Err NotFound.
Proof.
  intros Habs. unfold EmailAgent.process.
  destruct (EmailAgent.resolve_thread _ _ _) as [tid ts].
  erewrite bind_err; [reflexivity|]. apply update_absent. exact Habs.
Qed.

(** C3: [create] fails, with [DuplicateKey], exactly when the identifier
    is taken; [get] and [update] fail, with [NotFound], exactly when the
    entry is absent; a failing operation leaves the store as it was. The
    failures are surfaced: a step that fails fails every chain of steps it
    is part of, the classifier and each agent run on a document without
    an entry return [NotFound], and the envelope of a run stopped by an error has status
    [error] with that error's name, never [success]. *)
Theorem shared_memory_errors_are_surfaced id d f w :
  (SharedMemory.create id d w = (Err DuplicateKey, w) <->
     is_Some (memory w !! id)) /\
  (forall e, (SharedMemory.create id d w).1 = Err e ->
     e = DuplicateKey /\ is_Some (memory w !! id)) /\
  (SharedMemory.get id w = (Err NotFound, w) <-> memory w !! id = None) /\
  (forall e, (SharedMemory.get id w).1 = Err e ->
     e = NotFound /\ memory w !! id = None) /\
  (SharedMemory.update id f w = (Err NotFound, w) <-> memory w !! id = None) /\
  (forall e, (SharedMemory.update id f w).1 = Err e ->
     e = NotFound /\ memory w !! id = None) /\
  (forall A B (m : P A) (k : A -> P B) e w',
     m w = (Err e, w') -> bind m k w = (Err e, w')) /\
  (forall c doc,
     memory w !! doc_id doc = None ->
     JSONAgent.process doc c w = (Err NotFound, w) /\
     (forall infer, (EmailAgent.process infer doc c w).1 = Err NotFound) /\
     (forall infer answer,
        detect (source doc) <> UNKNOWN ->
        Capability.with_retries infer
          (ClassifierAgent.excerpt (detect (source doc)) (raw_content doc))
          Capability.intent_purpose = Some answer ->
        ClassifierAgent.classify infer doc w = (Err NotFound, w))) /\
  (forall s run_id c e,
     s <> DocumentProcessor.COMPLETED ->
     DocumentProcessor.status
       (DocumentProcessor.envelope
          (DocumentProcessor.stopped s run_id c e)) =
     DocumentProcessor.error (reason e)).
Proof.
  unfold SharedMemory.create, SharedMemory.get, SharedMemory.update.
  destruct (memory w !! id) as [entry|] eqn:Hid; simpl;
    repeat split; intros; simplify_eq; eauto using bind_err;
    try (by eapply json_process_absent);
    try (by eapply email_process_absent);
    try (by eapply classify_absent);
    try (by destruct s);
    try (by match goal with H : is_Some None |- _ => destruct H end).
Qed.

End SharedMemoryFacts.

Section JSONAgentFacts.
Context {T : Model.Tables}.
Import Model.

Lemma elem_of_missing intent (payload : gmap string value) f :
  f ∈ JSONAgent.missing intent payload <->
  f ∈ required_fields intent /\ payload !! f = None.
Proof. unfold JSONAgent.missing. rewrite list_elem_of_filter. tauto. Qed.

(** Nothing is missing exactly when every required field is present. *)
Lemma missing_nil intent (payload : gmap string value) :
  JSONAgent.missing intent payload = [] <->
  forall f, f ∈ required_fields intent -> is_Some (payload !! f).
Proof.
  split.
  - intros Hnil f Hf. destruct (payload !! f) eqn:Hlook; [eauto|].
    assert (f ∈ JSONAgent.missing intent payload)
      by (apply elem_of_missing; auto).
    rewrite Hnil in H. by apply elem_of_nil in H.
  - intros Hall. apply elem_of_nil_inv. intros f Hf.
    apply elem_of_missing in Hf as [Hreq Hnone].
    destruct (Hall f Hreq) as [v Hv]. congruence.
Qed.

(** A recognized field that is present is standardized under its
    normalized name. *)
Lemma standardized_field intent (payload : gmap string value) g v :
  g ∈ required_fields intent -> payload !! g = Some v ->
  (field_name intent g, v) ∈
    standardized_fields (JSONAgent.standardize intent payload).
Proof.
  intros Hg Hv. unfold JSONAgent.standardize. simpl.
  apply list_elem_of_omap. exists g. split; [exact Hg|]. by rewrite Hv.
Qed.

(** Every standardized field comes from a recognized field of the
    payload. *)
Lemma standardized_field_inv intent (payload : gmap string value) k v :
  (k, v) ∈ standardized_fields (JSONAgent.standardize intent payload) ->
  exists g, g ∈ required_fields intent /\ payload !! g = Some v /\
            k = field_name intent g.
Proof.
  unfold JSONAgent.standardize. simpl. intros H.
  apply list_elem_of_omap in H as (g & Hg & Heq).
  destruct (payload !! g) as [v'|] eqn:Hlook; simplify_eq/=. eauto.
Qed.

(** A payload that parses is never rejected, whatever it lacks. *)
Lemma json_process_parsed d c w payload entry :
  parse (raw_content d) = Some payload ->
  memory w !! doc_id d = Some entry ->
  let r := JSONAgent.standardize_payload (intent c) payload in
  JSONAgent.process d c w =
    (Ok r,
     with_memory
       (<[doc_id d :=
            SharedMemory.push "processing_result" "JSONResult" (clock w)
              (SharedMemory.write (SharedMemory.processing_result_field r)
                 entry)]> (memory w)) w).
Proof.
  intros Hparse Hentry r. subst r. unfold JSONAgent.process. rewrite Hparse.
  erewrite bind_ok by (eapply update_present; exact Hentry). reflexivity.
Qed.

(** C2: on a payload that has every required field of its declared
    intent the validation is [is_valid = true] with no missing field.
    Remove any one required field from such a payload: the validation is
    [is_valid = false] and lists that field as missing, the standardized
    fields still hold every other required field with its value, and the
    agent returns this result rather than an error. *)
Theorem json_agent_partial_success intent (payload : gmap string value) :
  ((forall g, g ∈ required_fields intent -> is_Some (payload !! g)) ->
   JSONAgent.validate intent payload =
     {| is_valid := true; missing_fields := [] |}) /\
  (forall f,
     f ∈ required_fields intent ->
     (forall g, g ∈ required_fields intent -> is_Some (payload !! g)) ->
     let partial := delete f payload in
     is_valid (JSONAgent.validate intent partial) = false /\
     f ∈ missing_fields (JSONAgent.validate intent partial) /\
     (forall g, g ∈ missing_fields (JSONAgent.validate intent partial) ->
        g = f) /\
     (forall g v,
        g ∈ required_fields intent -> g <> f -> payload !! g = Some v ->
        (field_name intent g, v) ∈
          standardized_fields (JSONAgent.standardize intent partial)) /\
     (forall d c w,
        Model.intent c = intent ->
        parse (raw_content d) = Some partial ->
        is_Some (memory w !! doc_id d) ->
        (JSONAgent.process d c w).1 =
          Ok (JSONResult (JSONAgent.standardize intent partial)
                (JSONAgent.validate intent partial)))).
Proof.
  split.
  - intros Hall. unfold JSONAgent.validate.
    apply missing_nil in Hall. rewrite Hall. reflexivity.
  - intros f Hf Hall partial.
    assert (Hmiss : f ∈ JSONAgent.missing intent partial).
    { apply elem_of_missing. split; [exact Hf|]. apply lookup_delete_eq. }
    repeat split.
    + unfold JSONAgent.validate. simpl. apply bool_decide_eq_false.
      intros Hnil. rewrite Hnil in Hmiss. by apply elem_of_nil in Hmiss.
    + exact Hmiss.
    + intros g Hg. apply elem_of_missing in Hg as [Hreq Hnone].
      destruct (decide (g = f)) as [|Hne]; [done|].
      subst partial. rewrite lookup_delete_ne in Hnone by done.
      destruct (Hall g Hreq) as [v Hv]. congruence.
    + intros g v Hg Hne Hv. apply standardized_field; [exact Hg|].
      subst partial. by rewrite lookup_delete_ne.
    + intros d c w <- Hparse [entry Hentry].
      by rewrite (json_process_parsed d c w partial entry Hparse Hentry).
Qed.

End JSONAgentFacts.

Section EmailAgentFacts.
Context {T : Model.Tables}.
Import Model.



(** A successful search stops at the first record that matches, and
    extends it in place. *)
Lemma find_thread_some h id ts tid ts' :
  EmailAgent.find_thread h id ts = Some (tid, ts') ->
  exists before t after,
    ts = before ++ t :: after /\
    (forall u, u ∈ before -> EmailAgent.matches h u = false) /\
    EmailAgent.matches h t = true /\
    tid = thr_id t /\
    ts' = before ++ EmailAgent.extend h id t :: after.
Proof.
  revert tid ts'. induction ts as [|u ts IH]; simpl; intros tid ts' H.
  - discriminate.
  - destruct (EmailAgent.matches h u) eqn:Hu.
    + simplify_eq. exists [], u, ts. repeat split; try done.
      intros v Hv. by apply elem_of_nil in Hv.
    + destruct (EmailAgent.find_thread h id ts) as [[tid0 ts0]|] eqn:Hfind;
        [|discriminate].
      simplify_eq.
      destruct (IH _ _ eq_refl) as (before & t & after & -> & Hb & Ht & -> & ->).
      exists (u :: before), t, after. repeat split; try done.
      intros v Hv. apply elem_of_cons in Hv as [->|Hv]; auto.
Qed.








(** The Email Agent on a document that has its entry: it never fails, and
    the thread of its result is the resolved one. *)
Lemma email_process_present infer d c w entry :
  memory w !! doc_id d = Some entry ->
  let h := extract_headers (raw_content d) in
  let resolved := EmailAgent.resolve_thread h (doc_id d) (threads w) in
  let r := EmailResult h (EmailAgent.analyse infer c (raw_content d))
             resolved.1 in
  EmailAgent.process infer d c w =
    (Ok r,
     with_memory
       (<[doc_id d :=
            SharedMemory.push "processing_result" "EmailResult" (clock w)
              (SharedMemory.write (SharedMemory.processing_result_field r)
                 entry)]> (memory w))
       (with_threads resolved.2 w)).
Proof.
  intros Hentry h resolved r. subst r resolved h.
  unfold EmailAgent.process.
  destruct (EmailAgent.resolve_thread _ _ _) as [tid ts].
  erewrite bind_ok by (apply update_present; exact Hentry). reflexivity.
Qed.


End EmailAgentFacts.

Section DocumentProcessorFacts.
Context {T : Model.Tables}.
Import Model.

Lemma new_doc_id_free w : memory w !! DocumentProcessor.new_doc_id w = None.
Proof.
  apply not_elem_of_dom. unfold DocumentProcessor.new_doc_id. apply is_fresh.
Qed.

Lemma classify_unsupported infer d w :
  detect (source d) = UNKNOWN ->
  ClassifierAgent.classify infer d w = (Err UnsupportedFormat, w).
Proof. intros H. unfold ClassifierAgent.classify. by rewrite H. Qed.

Lemma classify_unavailable infer d w :
  detect (source d) <> UNKNOWN ->
  Capability.with_retries infer
    (ClassifierAgent.excerpt (detect (source d)) (raw_content d))
    Capability.intent_purpose = None ->
  ClassifierAgent.classify infer d w = (Err ClassificationUnavailable, w).
Proof.
  intros Hft Hno. unfold ClassifierAgent.classify.
  destruct (detect (source d)); try congruence; by rewrite Hno.
Qed.

Lemma classify_present infer d w answer entry :
  detect (source d) <> UNKNOWN ->
  Capability.with_retries infer
    (ClassifierAgent.excerpt (detect (source d)) (raw_content d))
    Capability.intent_purpose = Some answer ->
  memory w !! doc_id d = Some entry ->
  let c := {| cls_file_type := detect (source d);
              intent := Capability.label answer;
              cls_confidence := Capability.score answer;
              cls_source := source d;
              cls_doc_id := doc_id d |} in
  ClassifierAgent.classify infer d w =
    (Ok c,
     with_memory
       (<[doc_id d :=
            SharedMemory.push "classification" (Capability.label answer)
              (clock w)
              (SharedMemory.write (SharedMemory.classification_field c)
                 entry)]> (memory w)) w).
Proof.
  intros Hft Hans Hentry c. subst c. unfold ClassifierAgent.classify.
  destruct (detect (source d)) eqn:Hd; try congruence; rewrite Hans;
    (erewrite bind_ok by (apply update_present; exact Hentry));
    reflexivity.
Qed.

Lemma json_process_malformed d c w entry :
  parse (raw_content d) = None ->
  memory w !! doc_id d = Some entry ->
  JSONAgent.process d c w =
    (Err MalformedInput,
     with_memory
       (<[doc_id d :=
            SharedMemory.push "json_agent" "MalformedInput" (clock w) entry]>
          (memory w)) w).
Proof.
  intros Hparse Hentry. unfold JSONAgent.process, SharedMemory.append_trace.
  rewrite Hparse. unfold bind. by rewrite Hentry.
Qed.

End DocumentProcessorFacts.

Section RunFacts.
Context {T : Model.Tables}.
Import Model.

Lemma handler_supported ft :
  ft <> UNKNOWN -> is_Some (DocumentProcessor.handler ft).
Proof. destruct ft; simpl; eauto. congruence. Qed.

Lemma handler_unknown ft :
  DocumentProcessor.handler ft = None -> ft = UNKNOWN.
Proof. destruct ft; simpl; congruence. Qed.

(** The orchestrator follows the verdict, and files the run's records
    under the identifier it assigned. *)
Lemma run_document_verdict infer content source_path w :
  let run := DocumentProcessor.run_document infer content source_path w in
  let v := verdict infer content source_path
             (DocumentProcessor.new_doc_id w) (threads w) in
  run.1 = v.1 /\ threads run.2 = v.2 /\ recorded w run.2 run.1.
Proof.
  intros run v. subst run v.
  pose proof (new_doc_id_free w) as Hfree.
  unfold DocumentProcessor.run_document, verdict.
  set (id := DocumentProcessor.new_doc_id w) in *.
  set (d := {| doc_id := id; source := source_path; raw_content := content;
               file_type := detect source_path |}).
  rewrite (create_free id d w Hfree).
  set (entry0 := {| document := d; classification := None;
                    processing_result := None; trace := [] |}).
  set (w1 := with_memory (<[id := entry0]> (memory w)) w).
  assert (Hw1 : memory w1 !! doc_id d = Some entry0)
    by (simpl; apply lookup_insert_eq).
  destruct (DocumentProcessor.handler (detect source_path)) as [agent|] eqn:Hh.
  - assert (Hft : detect (source d) <> UNKNOWN).
    { simpl. intros Heq. rewrite Heq in Hh. discriminate. }
    destruct (Capability.with_retries infer _ _) as [answer|] eqn:Hans.
    + rewrite (classify_present infer d w1 answer entry0 Hft Hans Hw1).
      cbv zeta. simpl cls_file_type. rewrite Hh.
      set (c := {| cls_file_type := detect (source d);
                   intent := Capability.label answer |}).
      set (entry1 := SharedMemory.push _ _ _ _).
      set (w2 := with_memory _ w1).
      assert (Hw2 : memory w2 !! doc_id d = Some entry1)
        by (simpl; apply lookup_insert_eq).
      destruct agent; simpl DocumentProcessor.run_agent.
      * destruct (parse content) as [payload|] eqn:Hparse.
        -- rewrite (json_process_parsed d c w2 payload entry1 Hparse Hw2).
           repeat split; simpl; try done.
           ++ intros k Hk. by rewrite !lookup_insert_ne.
           ++ eexists. split; [apply lookup_insert_eq|]. done.
        -- rewrite (json_process_malformed d c w2 entry1 Hparse Hw2).
           repeat split; simpl; try done.
           ++ intros k Hk. by rewrite !lookup_insert_ne.
           ++ eexists. split; [apply lookup_insert_eq|]. done.
      * rewrite (email_process_present infer d c w2 entry1 Hw2).
        repeat split; simpl; try done.
        -- intros k Hk. by rewrite !lookup_insert_ne.
        -- eexists. split; [apply lookup_insert_eq|]. done.
    + rewrite (classify_unavailable infer d w1 Hft Hans).
      repeat split; simpl; try done.
      * intros k Hk. by rewrite lookup_insert_ne.
      * eexists. split; [apply lookup_insert_eq|]. done.
  - apply handler_unknown in Hh.
    rewrite (classify_unsupported infer d w1 Hh).
    repeat split; simpl; try done.
    + intros k Hk. by rewrite lookup_insert_ne.
    + eexists. split; [apply lookup_insert_eq|]. done.
Qed.

End RunFacts.

Section PipelineClaims.
Context {T : Model.Tables}.
Import Model.


(** The record a message is filed under lists the document. *)
Lemma resolve_thread_member h id ts :
  exists t,
    t ∈ (EmailAgent.resolve_thread h id ts).2 /\
    thr_id t = (EmailAgent.resolve_thread h id ts).1 /\
    id ∈ members t.
Proof.
  unfold EmailAgent.resolve_thread.
  destruct (EmailAgent.find_thread h id ts) as [[tid ts']|] eqn:Hfind; simpl.
  - apply find_thread_some in Hfind
      as (before & t & after & -> & _ & _ & -> & ->).
    exists (EmailAgent.extend h id t). repeat split.
    + apply elem_of_app. right. by left.
    + simpl. apply elem_of_app. right. by left.
  - exists (EmailAgent.new_thread (EmailAgent.fresh_thread_id ts) h id).
    repeat split.
    + apply elem_of_app. right. by left.
    + simpl. by left.
Qed.






(** C4: for a document of a supported type, the identifier assigned at
    ingestion is the one in every record of its run: the Classification
    carries it, the entry filed under it in Shared Memory holds a Document
    with it together with the Classification and the ProcessingResult of
    the run, an [EmailResult] names a thread record that lists it, and no
    other entry is touched. When the capability answers, the
    Classification is produced. *)
Theorem doc_id_is_never_lost infer content source_path w :
  detect source_path <> UNKNOWN ->
  let run := DocumentProcessor.run_document infer content source_path w in
  let id := DocumentProcessor.new_doc_id w in
  DocumentProcessor.run_doc_id run.1 = id /\
  (forall c, DocumentProcessor.run_classification run.1 = Some c ->
     cls_doc_id c = id /\ cls_source c = source_path) /\
  recorded w run.2 run.1 /\
  (forall h a tid,
     DocumentProcessor.run_result run.1 = Some (EmailResult h a tid) ->
     exists t, t ∈ threads run.2 /\ thr_id t = tid /\ id ∈ members t) /\
  (forall answer,
     Capability.with_retries infer
       (ClassifierAgent.excerpt (detect source_path) content)
       Capability.intent_purpose = Some answer ->
     exists c, DocumentProcessor.run_classification run.1 = Some c /\
               intent c = Capability.label answer).
Proof.
  intros Hft run id.
  destruct (run_document_verdict infer content source_path w)
    as (Hrun & Hts & Hrec).
  fold run in Hrun, Hts, Hrec. fold id in Hrun, Hts.
  destruct (handler_supported _ Hft) as [agent Hagent].
  assert (Hcases :
    DocumentProcessor.run_doc_id run.1 = id /\
    (forall c, DocumentProcessor.run_classification run.1 = Some c ->
       cls_doc_id c = id /\ cls_source c = source_path) /\
    (forall h a tid,
       DocumentProcessor.run_result run.1 = Some (EmailResult h a tid) ->
       tid = (EmailAgent.resolve_thread h id (threads w)).1 /\
       threads run.2 = (EmailAgent.resolve_thread h id (threads w)).2) /\
    (forall answer,
       Capability.with_retries infer
         (ClassifierAgent.excerpt (detect source_path) content)
         Capability.intent_purpose = Some answer ->
       exists c, DocumentProcessor.run_classification run.1 = Some c /\
                 intent c = Capability.label answer)).
  { rewrite Hrun, Hts. unfold verdict. rewrite Hagent.
    destruct (Capability.with_retries infer _ _) as [answer|];
      [destruct agent; [destruct (parse content)|]|]; simpl;
      (repeat split; intros; simplify_eq/=; eauto). }
  destruct Hcases as (Hid & Hcls & Hmail & Hans).
  split; [exact Hid|]. split; [exact Hcls|]. split; [exact Hrec|].
  split; [|exact Hans].
  intros h a tid Hres. apply Hmail in Hres as [-> ->].
  apply resolve_thread_member.
Qed.






End PipelineClaims.


(** ** The front-end statements at concrete inputs *)

Section FrontEndExamples.
Import JS Examples.
Existing Instance engine.

(** Two files dropped at once on an accepting back end: the one request
    carries the first file alone. *)
Lemma upload_request_has_one_file_witness :
  Fetch (upload_request (FileObject report_pdf)) ∈
    effects (DocumentUpload.onDrop accepting (Some parent)
               [report_pdf; notes_txt]) DocumentUpload.initial /\
  exists f, head [report_pdf; notes_txt] = Some f /\
            body (upload_request (FileObject report_pdf)) =
              Some [("file", FileObject f)].
Proof.
  assert (H : Fetch (upload_request (FileObject report_pdf)) ∈
                effects (DocumentUpload.onDrop accepting (Some parent)
                           [report_pdf; notes_txt]) DocumentUpload.initial)
    by (vm_compute; constructor).
  split; [exact H|].
  destruct (upload_request_has_one_file accepting (Some parent)
              [report_pdf; notes_txt] DocumentUpload.initial)
    as (_ & _ & Hreq & _).
  exact (Hreq _ H).
Defined.

(** A refused upload is reported and the parent is not called; an
    accepted one reaches the parent with the parsed body. *)
Lemma upload_failure_is_reported_witness :
  (Fetch (upload_request (FileObject report_pdf)) ∈
     effects (DocumentUpload.onDrop refusing (Some parent) [report_pdf])
       DocumentUpload.initial /\
   DocumentUpload.uploadStatus
     (final_state (DocumentUpload.onDrop refusing (Some parent) [report_pdf])
        DocumentUpload.initial) = String "error") /\
  (OnUpload (Object [("analysis", String "Invoice");
                     ("response", String "stored")]) ∈
     effects (DocumentUpload.onDrop accepting (Some parent) [report_pdf])
       DocumentUpload.initial /\
   exists request response,
     Fetch request ∈
       effects (DocumentUpload.onDrop accepting (Some parent) [report_pdf])
         DocumentUpload.initial /\
     accepting request = Responded response /\
     ok response = true /\
     json response = Parsed (Object [("analysis", String "Invoice");
                                     ("response", String "stored")])).
Proof.
  split.
  - assert (H : Fetch (upload_request (FileObject report_pdf)) ∈
                  effects (DocumentUpload.onDrop refusing (Some parent)
                             [report_pdf]) DocumentUpload.initial)
      by (vm_compute; constructor).
    split; [exact H|].
    destruct (upload_failure_is_reported refusing (Some parent) [report_pdf]
                DocumentUpload.initial) as [Hbad _].
    destruct (Hbad _ H) as (_ & Hstatus & _); [reflexivity|exact Hstatus].
  - assert (H : OnUpload (Object [("analysis", String "Invoice");
                                  ("response", String "stored")]) ∈
                  effects (DocumentUpload.onDrop accepting (Some parent)
                             [report_pdf]) DocumentUpload.initial)
      by (vm_compute; constructor; constructor).
    split; [exact H|].
    destruct (upload_failure_is_reported accepting (Some parent) [report_pdf]
                DocumentUpload.initial) as [_ Hok].
    exact (Hok _ H).
Defined.



(** A parsed body goes through; [null] ends in the error object. *)
Lemma handleUpload_outcome_witness :
  (App.uploadStatus
     (final_state (App.handleUpload (Object [("analysis", String "Invoice")]))
        App.initial) = success_status /\
   App.error
     (final_state (App.handleUpload (Object [("analysis", String "Invoice")]))
        App.initial) = Null /\
   effects (App.handleUpload (Object [("analysis", String "Invoice")]))
     App.initial = []) /\
  exists msg,
    msg <> "" /\
    App.uploadStatus (final_state (App.handleUpload Null) App.initial) =
      error_status (String msg) /\
    App.error (final_state (App.handleUpload Null) App.initial) = String msg /\
    exists thrown,
      effects (App.handleUpload Null) App.initial =
        [ConsoleError "Upload error:" thrown].
Proof.
  split.
  - destruct (handleUpload_outcome (Object [("analysis", String "Invoice")])
                App.initial) as (_ & _ & Hok & _).
    apply Hok; discriminate.
  - destruct (handleUpload_outcome Null App.initial) as (_ & _ & _ & Hnull).
    apply Hnull. right. reflexivity.
Defined.

(** C8 as stated fails at [null], a body the back end can send: the read
    of [data.analysis] throws, the catch branch logs the [TypeError] and
    [uploadStatus] ends as the error object, not the success one. *)
Lemma handleUpload_null_enters_catch :
  App.uploadStatus (final_state (App.handleUpload Null) App.initial) =
    error_status
      (String "Cannot read properties of null (reading 'analysis')") /\
  App.uploadStatus (final_state (App.handleUpload Null) App.initial) <>
    success_status /\
  effects (App.handleUpload Null) App.initial =
    [ConsoleError "Upload error:"
       (TypeError "Cannot read properties of null (reading 'analysis')")].
Proof.
  split; [reflexivity|]. split; [|reflexivity].
  vm_compute. discriminate.
Qed.

End FrontEndExamples.

(** ** The pipeline statements at concrete inputs *)

Section PipelineExamples.
Import Model Examples.
Existing Instance engine.
Existing Instance tables.


(** The scenario of the specification: the invoice with all three
    fields is valid; without [timestamp] it is not, [timestamp] is listed
    as missing, and the two fields that are there are standardized. *)
Lemma json_agent_partial_success_witness :
  JSONAgent.validate "Invoice" invoice =
    {| is_valid := true; missing_fields := [] |} /\
  is_valid (JSONAgent.validate "Invoice" (delete "timestamp" invoice)) = false /\
  "timestamp" ∈
    missing_fields (JSONAgent.validate "Invoice" (delete "timestamp" invoice)) /\
  ("value", "1000.00") ∈
    standardized_fields
      (JSONAgent.standardize "Invoice" (delete "timestamp" invoice)).
Proof.
  assert (Hall : forall g, g ∈ required_fields "Invoice" ->
                           is_Some (invoice !! g)).
  { intros g Hg. apply list_elem_of_In in Hg. simpl in Hg.
    destruct Hg as [<-|[<-|[<-|[]]]]; eexists; reflexivity. }
  assert (Hts : "timestamp" ∈ required_fields "Invoice")
    by (apply list_elem_of_In; simpl; auto).
  destruct (@json_agent_partial_success tables "Invoice" invoice) as [Hvalid Hpartial].
  split; [exact (Hvalid Hall)|].
  destruct (Hpartial "timestamp" Hts Hall) as (Hinvalid & Hlisted & _ & Hstd & _).
  split; [exact Hinvalid|]. split; [exact Hlisted|].
  apply Hstd.
  - apply list_elem_of_In; simpl; auto.
  - discriminate.
  - reflexivity.
Defined.

(** A second invoice under an identifier that is taken. *)
Lemma shared_memory_errors_are_surfaced_witness :
  SharedMemory.create 0 (document 0 "again.json" invoice_text) mailbox =
    (Err DuplicateKey, mailbox) /\
  SharedMemory.get 7 mailbox = (Err NotFound, mailbox).
Proof.
  destruct (shared_memory_errors_are_surfaced 0
              (document 0 "again.json" invoice_text)
              (SharedMemory.classification_field
                 (invoice_classification 0 "again.json")) mailbox)
    as (Hcreate & _).
  destruct (shared_memory_errors_are_surfaced 7
              (document 7 "again.json" invoice_text)
              (SharedMemory.classification_field
                 (invoice_classification 7 "again.json")) mailbox)
    as (_ & _ & Hget & _).
  split.
  - apply Hcreate.
    exists (entry_of (document 0 "question.txt" question)). reflexivity.
  - apply Hget. reflexivity.
Defined.

(** An invoice in JSON through the whole pipeline. *)
Lemma doc_id_is_never_lost_witness :
  detect "invoice.json" <> UNKNOWN /\
  recorded empty_world
    (DocumentProcessor.run_document (labelling None) invoice_text
       "invoice.json" empty_world).2
    (DocumentProcessor.run_document (labelling None) invoice_text
       "invoice.json" empty_world).1.
Proof.
  assert (H : detect "invoice.json" <> UNKNOWN) by discriminate.
  split; [exact H|].
  destruct (doc_id_is_never_lost (labelling None) invoice_text "invoice.json"
              empty_world H) as (_ & _ & Hrec & _).
  exact Hrec.
Defined.





End PipelineExamples.

(** * More on the upload front end *)

Section DropHandler.
Context {E : JS.Engine}.
Import JS React.

Ltac run :=
  cbv beta iota zeta delta
    [completion final_state effects
     DocumentUpload.onDrop DocumentUpload.setError
     DocumentUpload.setUploadStatus DocumentUpload.error
     DocumentUpload.uploadStatus DocumentUploader.onDrop
     App.handleUpload App.checkBackendHealth App.resetState
     App.setUploadStatus App.setLoading App.setAnalysis App.setResponse
     App.setError App.uploadStatus App.loading App.analysis App.response
     App.error
     bind modify get throw ret emit fetch try_catch try_finally first call
     response_json new_Error TypeError json ok app fst snd negb
     String.eqb Ascii.eqb Bool.eqb Nat.ltb Nat.leb Datatypes.length
     upload_request health_request success_status error_status].

Ltac crunch :=
  repeat (run;
    match goal with
    | |- context [match ?a with Rejected _ _ => _ | Responded _ => _ end] =>
        destruct a as [? ?|[[] ?]] eqn:?
    | |- context [match ?j with Parsed _ => _ | Unparsable _ _ => _ end] =>
        destruct j eqn:?
    | |- context [match ?v with Undefined => _ | _ => _ end] =>
        destruct v eqn:?
    | |- context [match ?c with Some _ => _ | None => _ end] =>
        destruct c eqn:?
    | |- context [match ?c with Normal _ => _ | Throw _ => _ end] =>
        destruct c eqn:?
    end);
  run.

Lemma or_truthy a b : truthy b = true -> truthy (or a b) = true.
Proof. intros Hb. unfold or. by destruct (truthy a) eqn:Ha. Qed.

Lemma or_of_string m fallback :
  or (String m) (String fallback) =
    String (if String.eqb m "" then fallback else m).
Proof. unfold or, truthy. by destruct (String.eqb m ""). Qed.

(** Off a value that is neither [null] nor [undefined], [get] is
    [read]. *)
Lemma get_read {S} v key :
  nullish v = false -> @get E S v key = ret (read v key).
Proof.
  destruct v; try discriminate; intros _; simpl; try reflexivity;
    repeat case_match; reflexivity.
Qed.

(** X1: an accepted first file, an ok answer with a body that parses
    and a parent that returns: the handler completes with status
    ['success'] and no error, after exactly one request, the upload of
    that file, followed by exactly one call of [onUpload] with the parsed
    body (none when the prop is absent). *)
Theorem drop_success network onUpload f rest s response data :
  includes DocumentUpload.allowedTypes (String (type f)) = true ->
  network (upload_request (FileObject f)) = Responded response ->
  ok response = true ->
  json response = Parsed data ->
  (forall callback, onUpload = Some callback -> callback data = Normal tt) ->
  DocumentUpload.onDrop network onUpload (f :: rest) s [] =
    (Normal tt,
     {| DocumentUpload.uploadStatus := String "success";
        DocumentUpload.error := Null |},
     Fetch (upload_request (FileObject f)) ::
     match onUpload with
     | Some _ => [OnUpload data]
     | None => []
     end).
Proof.
  intros Hin Hnet Hok Hjson Hcb. unfold upload_request in Hnet.
  run. rewrite Hin. run. rewrite Hnet. destruct response as [o j].
  simpl in Hok, Hjson. subst o j. run.
  destruct onUpload as [callback|]; run; [|reflexivity].
  rewrite (Hcb callback eq_refl). reflexivity.
Qed.

(** X2: what the user reads after a failed upload. A rejected request
    shows the message of the rejection; a response that is not ok shows
    the [error] string of its JSON body when it has one that is not empty,
    ["Upload failed"] when the body is an object without one, and the
    parser's message when the body is not JSON; an empty message is
    replaced by ["Failed to upload file. Please try again."]. In each case
    the status is ['error']. *)
Theorem drop_error_text network onUpload f rest s :
  includes DocumentUpload.allowedTypes (String (type f)) = true ->
  let s' :=
    final_state (DocumentUpload.onDrop network onUpload (f :: rest)) s in
  let shown m :=
    s' = {| DocumentUpload.uploadStatus := String "error";
            DocumentUpload.error :=
              String (if String.eqb m ""
                      then "Failed to upload file. Please try again."
                      else m) |} in
  match network (upload_request (FileObject f)) with
  | Rejected _ message => shown message
  | Responded {| ok := false; json := Unparsable _ message |} => shown message
  | Responded {| ok := false; json := Parsed (Object properties) |} =>
      match own_property properties "error" with
      | String reason =>
          shown (if String.eqb reason "" then "Upload failed" else reason)
      | Undefined | Null | Bool false => shown "Upload failed"
      | _ => True
      end
  | _ => True
  end.
Proof.
  intros Hin s' shown. subst s' shown. unfold upload_request.
  run. rewrite Hin. run.
  destruct (network _) as [n m|[[] [body|n m]]]; run;
    rewrite ?or_of_string; try done.
  destruct body; try done. run.
  destruct (own_property properties "error") as [| |[]| |reason| | | |];
    try done; rewrite ?or_of_string;
    cbv beta iota delta [or truthy to_string]; rewrite ?or_of_string;
    done.
Qed.

(** X3: a parent that throws out of [onUpload] after an upload that
    went through. The throw lands in the handler's own catch: a thrown
    value that has properties turns the finished upload into status
    ['error'], with its [message] (or the fallback) as the error; a
    thrown [null] or [undefined] makes the catch itself throw on
    [err.message], so the handler ends by a [TypeError] and the status
    stays at ['success']. *)
Theorem drop_parent_throws network callback f rest s response data thrown :
  includes DocumentUpload.allowedTypes (String (type f)) = true ->
  network (upload_request (FileObject f)) = Responded response ->
  ok response = true ->
  json response = Parsed data ->
  callback data = Throw thrown ->
  DocumentUpload.onDrop network (Some callback) (f :: rest) s [] =
    (if nullish thrown then
       (Throw (TypeError
                 (type_error_message
                    (match thrown with Null => true | _ => false end)
                    "message")),
        {| DocumentUpload.uploadStatus := String "success";
           DocumentUpload.error := Null |})
     else
       (Normal tt,
        {| DocumentUpload.uploadStatus := String "error";
           DocumentUpload.error :=
             or (read thrown "message")
                (String "Failed to upload file. Please try again.") |}),
     [Fetch (upload_request (FileObject f)); OnUpload data]).
Proof.
  intros Hin Hnet Hok Hjson Hcb. unfold upload_request in Hnet.
  run. rewrite Hin. run. rewrite Hnet. destruct response as [o j].
  simpl in Hok, Hjson. subst o j. run. rewrite Hcb.
  destruct thrown; simpl; try reflexivity; repeat case_match; reflexivity.
Qed.

(** The handler calls [onUpload] only with the body of an ok answer to
    the upload of the first file. *)
Lemma onDrop_calls network onUpload acceptedFiles s data :
  OnUpload data ∈
    effects (DocumentUpload.onDrop network onUpload acceptedFiles) s ->
  exists f response,
    head acceptedFiles = Some f /\
    includes DocumentUpload.allowedTypes (String (type f)) = true /\
    network (upload_request (FileObject f)) = Responded response /\
    ok response = true /\ json response = Parsed data.
Proof.
  destruct acceptedFiles as [|f rest]; run.
  - intros H. by apply elem_of_nil in H.
  - destruct (includes DocumentUpload.allowedTypes (String (type f))) eqn:Hin;
      [|run; intros H; by apply elem_of_nil in H].
    crunch; rewrite ?elem_of_cons, ?elem_of_nil; intros H;
      intuition (try discriminate; simplify_eq);
      eexists _, _; repeat split; eauto.
Qed.

(** X5: a drop starts afresh. Whatever status and error an earlier drop
    left, the handler completes the same way, leaves the same state and
    has the same effects. *)
Theorem drop_forgets_earlier_state network onUpload acceptedFiles s1 s2 :
  DocumentUpload.onDrop network onUpload acceptedFiles s1 [] =
  DocumentUpload.onDrop network onUpload acceptedFiles s2 [].
Proof.
  destruct acceptedFiles as [|f rest]; run; [reflexivity|].
  destruct (includes DocumentUpload.allowedTypes (String (type f)));
    crunch; reflexivity.
Qed.

(** X6: the [onUpload] prop left out. [DocumentUpload] guards the call:
    a drop with a file always completes normally, whatever the network
    does. [DocumentUploader] does not: a drop with a file throws the
    [TypeError] of calling [undefined], before anything else happens; only
    the empty drop goes through, doing nothing. *)
Theorem drop_without_onUpload f rest :
  (forall network s,
     completion (DocumentUpload.onDrop network None (f :: rest)) s =
       Normal tt) /\
  DocumentUploader.onDrop None (f :: rest) tt [] =
    (Throw (TypeError (not_a_function_message "onUpload")), tt, []) /\
  (forall onUpload,
     DocumentUploader.onDrop onUpload [] tt [] = (Normal tt, tt, [])).
Proof.
  split; [|split; [reflexivity|reflexivity]].
  intros network s. run.
  destruct (includes DocumentUpload.allowedTypes (String (type f)));
    crunch; reflexivity.
Qed.

(** X7: the drop handler decides by the MIME type alone, and its list
    of types is the key column of the [accept] table of its drop zone. A
    drop sends an upload request exactly when the [type] of its first file
    is one of the keys of the table; the name of the file and the
    extensions the table lists play no part in the handler. The drop zone
    of [DocumentUploader] has the same table. *)
Theorem accept_agrees_with_allowedTypes network onUpload f rest s :
  ((exists request,
      Fetch request ∈
        effects (DocumentUpload.onDrop network onUpload (f :: rest)) s) <->
   type f ∈ (DocumentUpload.accept DocumentUpload.dropzone).*1) /\
  (includes DocumentUpload.allowedTypes (String (type f)) = true <->
   type f ∈ (DocumentUpload.accept DocumentUpload.dropzone).*1) /\
  DocumentUpload.accept DocumentUploader.dropzone =
    DocumentUpload.accept DocumentUpload.dropzone.
Proof.
  assert (Hkeys :
    includes DocumentUpload.allowedTypes (String (type f)) = true <->
    type f ∈ (DocumentUpload.accept DocumentUpload.dropzone).*1).
  { unfold includes, DocumentUpload.allowedTypes.
    rewrite existsb_exists. change ((DocumentUpload.accept _).*1)
      with ["application/pdf"; "application/json"; "text/plain"].
    rewrite list_elem_of_In. split.
    - intros (x & Hx & Heq). apply String.eqb_eq in Heq. by subst x.
    - intros H. exists (type f). split; [exact H|]. apply String.eqb_refl. }
  split; [|split; [exact Hkeys|reflexivity]].
  rewrite <- Hkeys. split.
  - intros (request & Hin).
    apply onDrop_requests in Hin as (f' & Hhead & Hf & _).
    simpl in Hhead. by simplify_eq.
  - intros Hin. exists (upload_request (FileObject f)).
    unfold upload_request. run. rewrite Hin.
    crunch; rewrite ?elem_of_cons; auto.
Qed.

End DropHandler.

Section PageAndViews.
Context {E : JS.Engine}.
Import JS React.

Ltac run :=
  cbv beta iota zeta delta
    [completion final_state effects
     DocumentUpload.onDrop DocumentUpload.setError
     DocumentUpload.setUploadStatus DocumentUpload.error
     DocumentUpload.uploadStatus
     App.handleUpload App.resetState
     App.setUploadStatus App.setLoading App.setAnalysis App.setResponse
     App.setError App.uploadStatus App.loading App.analysis App.response
     App.error Page.onUpload
     bind modify get throw ret emit fetch try_catch try_finally first call
     response_json new_Error TypeError json ok app fst snd negb
     String.eqb Ascii.eqb Bool.eqb
     upload_request success_status error_status].

(** The state [handleUpload] leaves, whatever was recorded before it. *)
Lemma handleUpload_state data s t :
  (App.handleUpload data s t).1.2 =
    if nullish data then
      let message :=
        or (String (type_error_message
                      (match data with Null => true | _ => false end)
                      "analysis"))
           (String "Error uploading document. Please try again.") in
      {| App.uploadStatus := error_status message; App.loading := false;
         App.analysis := Null; App.response := Null;
         App.error := message |}
    else
      {| App.uploadStatus := success_status; App.loading := false;
         App.analysis := read data "analysis";
         App.response := read data "response"; App.error := Null |}.
Proof. destruct data; run; reflexivity. Qed.

(** X8: [handleUpload] shows the body it is given and nothing older.
    The state it leaves does not depend on the state it found: after a
    body that is neither [null] nor [undefined], [analysis] and [response]
    are the body's properties of these names ([undefined] when it has
    none); after [null] or [undefined] both are back to [null], so the
    results of an earlier upload are gone. *)
Theorem handleUpload_shows_the_body data s1 s2 :
  final_state (App.handleUpload data) s1 =
    final_state (App.handleUpload data) s2 /\
  (nullish data = false ->
   App.analysis (final_state (App.handleUpload data) s1) =
     read data "analysis" /\
   App.response (final_state (App.handleUpload data) s1) =
     read data "response") /\
  (nullish data = true ->
   App.analysis (final_state (App.handleUpload data) s1) = Null /\
   App.response (final_state (App.handleUpload data) s1) = Null).
Proof.
  unfold final_state. rewrite !handleUpload_state.
  split; [reflexivity|]. split; intros ->; split; reflexivity.
Qed.

(** What of the page is on the screen, read off the state. *)
Lemma AppView_shows s :
  has_element "CircularProgress" (AppView.render s) = App.loading s /\
  has_element "Button" (AppView.render s) =
    truthy (App.uploadStatus s)
    && is_string (read (App.uploadStatus s) "type") "error" /\
  has_element "Alert" (AppView.render s) =
    truthy (App.uploadStatus s) || truthy (App.error s) /\
  has_text "Error Details: " (AppView.render s) = truthy (App.error s) /\
  has_text "Document Analysis" (AppView.render s) = truthy (App.analysis s) /\
  has_text "Processed Response" (AppView.render s) =
    truthy (App.response s) /\
  has_element "Accordion" (AppView.render s) =
    truthy (App.analysis s) || truthy (App.response s).
Proof.
  destruct s as [status loading analysis response error].
  unfold AppView.render, and_then. simpl App.uploadStatus.
  simpl App.loading. simpl App.analysis. simpl App.response.
  simpl App.error. simpl (truthy (Bool _)).
  destruct loading, (truthy status), (truthy analysis), (truthy response),
    (truthy error), (is_string (read status "type") "error");
    vm_compute; repeat split.
Qed.

Lemma DocumentUploadView_shows isDragActive s :
  has_class "success-message" (DocumentUploadView.render isDragActive s) =
    is_string (DocumentUpload.uploadStatus s) "success" /\
  has_class "error-message" (DocumentUploadView.render isDragActive s) =
    truthy (DocumentUpload.error s).
Proof.
  destruct s as [status error].
  unfold DocumentUploadView.render, and_then. simpl DocumentUpload.error.
  simpl DocumentUpload.uploadStatus. simpl (truthy (Bool _)).
  destruct isDragActive, (truthy error), (is_string status "success");
    vm_compute; split; reflexivity.
Qed.

(** X9: "Try Again". [resetState] after [handleUpload], whatever the
    upload was and whatever the state before it, puts [App] back in its
    initial state: the page then shows no alert, no result and no
    progress indicator. On its own [resetState] leaves [loading] as it
    is. *)
Theorem try_again_restores_the_start data s :
  let s' := final_state App.resetState (final_state (App.handleUpload data) s) in
  s' = App.initial /\
  has_element "Alert" (AppView.render s') = false /\
  has_element "Accordion" (AppView.render s') = false /\
  has_element "CircularProgress" (AppView.render s') = false /\
  App.loading (final_state App.resetState s) = App.loading s.
Proof.
  intros s'. assert (Hs : s' = App.initial).
  { subst s'. unfold final_state at 2. rewrite handleUpload_state.
    destruct (nullish data); reflexivity. }
  rewrite Hs. repeat split; reflexivity.
Qed.

(** X10: the page after [handleUpload]. The progress indicator is never
    on the screen once the handler is done. After a body that is neither
    [null] nor [undefined] there is no "Try Again" button and no error
    details, and the analysis and the response are shown exactly when the
    body has a truthy property of that name. After [null] or [undefined]
    the button and the error details are shown, and no result. *)
Theorem page_after_handleUpload data s :
  let view := AppView.render (final_state (App.handleUpload data) s) in
  has_element "CircularProgress" view = false /\
  has_element "Button" view = nullish data /\
  has_text "Error Details: " view = nullish data /\
  has_text "Document Analysis" view =
    negb (nullish data) && truthy (read data "analysis") /\
  has_text "Processed Response" view =
    negb (nullish data) && truthy (read data "response").
Proof.
  intros view.
  destruct (AppView_shows (final_state (App.handleUpload data) s))
    as (Hspin & Hbutton & _ & Herror & Hanalysis & Hresponse & _).
  subst view. rewrite Hspin, Hbutton, Herror, Hanalysis, Hresponse.
  unfold final_state. rewrite handleUpload_state.
  destruct (nullish data) eqn:Hnull; simpl; [|by repeat split].
  rewrite or_truthy by reflexivity. by repeat split.
Qed.

(** Without a call of [onUpload] in the record, [App] is not reached. *)
Lemma deliver_no_calls record a seen :
  (forall data, OnUpload data ∉ record) ->
  Page.deliver record a seen = (a, seen ++ record).
Proof.
  revert seen. induction record as [|e record IH]; intros seen Hno; simpl.
  - by rewrite app_nil_r.
  - destruct e as [request|label v|data].
    + rewrite IH; [by rewrite <- app_assoc|].
      intros data Hin. apply (Hno data). by right.
    + rewrite IH; [by rewrite <- app_assoc|].
      intros data Hin. apply (Hno data). by right.
    + exfalso. apply (Hno data). by left.
Qed.

(** X11: a drop that does not go through stops at the drop zone. Unless
    the first file is of an accepted type and its upload is answered ok
    with a body that parses (so with no file, with a file of another type
    whatever the back end would answer, with a request that is rejected or
    answered not ok, with a body that does not parse), a drop on the page
    leaves the state of [App] exactly as it was and makes [App] log
    nothing: the alert and the results of an earlier upload stay on the
    screen next to the drop zone's new error. *)
Theorem failed_drop_leaves_App_untouched network acceptedFiles p :
  (forall f response data,
     head acceptedFiles = Some f ->
     includes DocumentUpload.allowedTypes (String (type f)) = true ->
     network (upload_request (FileObject f)) = Responded response ->
     ok response = true -> json response <> Parsed data) ->
  Page.app (Page.drop network acceptedFiles p).1.2 = Page.app p /\
  (Page.drop network acceptedFiles p).2 =
    effects (DocumentUpload.onDrop network (Some Page.onUpload) acceptedFiles)
      (Page.upload p) /\
  forall label v, ConsoleError label v ∉ (Page.drop network acceptedFiles p).2.
Proof.
  intros Hfail.
  assert (Hno : forall data,
            OnUpload data ∉
              effects (DocumentUpload.onDrop network (Some Page.onUpload)
                         acceptedFiles) (Page.upload p)).
  { intros data Hin.
    apply onDrop_calls in Hin as (f & r & Hf & Htype & Hnet & Hok & Hjson).
    by apply (Hfail f r data). }
  unfold Page.drop, effects in *.
  destruct (DocumentUpload.onDrop _ _ _ _ _) as [[c s'] record] eqn:Hdrop.
  simpl in Hno. rewrite (deliver_no_calls record (Page.app p) [] Hno).
  simpl. repeat split. intros label v Hin.
  assert (Hrecord : record =
            effects (DocumentUpload.onDrop network (Some Page.onUpload)
                       acceptedFiles) (Page.upload p))
    by (unfold effects; by rewrite Hdrop).
  rewrite Hrecord in Hin. clear Hdrop Hrecord Hno.
  destruct acceptedFiles as [|f rest].
  - by apply elem_of_nil in Hin.
  - revert Hin. unfold effects. run.
    destruct (includes DocumentUpload.allowedTypes (String (type f)));
      [|run; intros H; by apply elem_of_nil in H].
    repeat (run;
      match goal with
      | |- context [match ?a with Rejected _ _ => _ | Responded _ => _ end] =>
          destruct a as [? ?|[[] ?]] eqn:?
      | |- context [match ?j with Parsed _ => _ | Unparsable _ _ => _ end] =>
          destruct j eqn:?
      | |- context [match ?v with Undefined => _ | _ => _ end] =>
          destruct v eqn:?
      end); run;
      rewrite ?elem_of_cons, ?elem_of_nil; intros H;
      intuition discriminate.
Qed.

(** The button and the error details after [handleUpload]. *)
Lemma page_states data s :
  has_element "Button"
    (AppView.render (final_state (App.handleUpload data) s)) = nullish data /\
  has_text "Error Details: "
    (AppView.render (final_state (App.handleUpload data) s)) = nullish data.
Proof.
  destruct (AppView_shows (final_state (App.handleUpload data) s))
    as (_ & Hbutton & _ & Herror & _).
  rewrite Hbutton, Herror. unfold final_state. rewrite handleUpload_state.
  destruct (nullish data) eqn:Hnull; simpl; [|done].
  rewrite or_truthy by reflexivity. done.
Qed.

(** X12: a drop on the page that goes through. When the upload of an
    accepted first file is answered ok with a parsed body, the drop
    completes, the drop zone is left at status ['success'] without error,
    and [App] is left in the state of [handleUpload] on that body. So
    after a body of [null] the two components disagree: the drop zone
    shows its success message while [App] shows the error details and the
    "Try Again" button. *)
Theorem drop_reaches_App network f rest p response data isDragActive :
  includes DocumentUpload.allowedTypes (String (type f)) = true ->
  network (upload_request (FileObject f)) = Responded response ->
  ok response = true ->
  json response = Parsed data ->
  let after := (Page.drop network (f :: rest) p).1.2 in
  (Page.drop network (f :: rest) p).1.1 = Normal tt /\
  Page.upload after =
    {| DocumentUpload.uploadStatus := String "success";
       DocumentUpload.error := Null |} /\
  Page.app after = final_state (App.handleUpload data) (Page.app p) /\
  has_class "success-message"
    (DocumentUploadView.render isDragActive (Page.upload after)) = true /\
  has_class "error-message"
    (DocumentUploadView.render isDragActive (Page.upload after)) = false /\
  has_element "Button" (AppView.render (Page.app after)) = nullish data /\
  has_text "Error Details: " (AppView.render (Page.app after)) =
    nullish data.
Proof.
  intros Hin Hnet Hok Hjson after.
  assert (Hdrop :
    DocumentUpload.onDrop network (Some Page.onUpload) (f :: rest)
      (Page.upload p) [] =
      (Normal tt,
       {| DocumentUpload.uploadStatus := String "success";
          DocumentUpload.error := Null |},
       [Fetch (upload_request (FileObject f)); OnUpload data])).
  { unfold upload_request in Hnet. run. rewrite Hin. run. rewrite Hnet.
    destruct response as [o j]. simpl in Hok, Hjson. subst o j. run.
    reflexivity. }
  assert (Hafter :
    (Page.drop network (f :: rest) p).1.1 = Normal tt /\
    Page.upload after =
      {| DocumentUpload.uploadStatus := String "success";
         DocumentUpload.error := Null |} /\
    Page.app after = final_state (App.handleUpload data) (Page.app p)).
  { subst after. unfold Page.drop. rewrite Hdrop. simpl.
    pose proof (handleUpload_state data (Page.app p)
                  [Fetch (upload_request (FileObject f)); OnUpload data])
      as Hstate.
    destruct (App.handleUpload data (Page.app p) _) as [[c a'] seen].
    simpl in Hstate. simpl. repeat split.
    unfold final_state. by rewrite handleUpload_state. }
  destruct Hafter as (Hc & Hupload & Happ).
  destruct (page_states data (Page.app p)) as (Hbutton & Hdetails).
  split; [exact Hc|]. split; [exact Hupload|]. split; [exact Happ|].
  rewrite Hupload, Happ.
  destruct (DocumentUploadView_shows isDragActive
              {| DocumentUpload.uploadStatus := String "success";
                 DocumentUpload.error := Null |}) as [-> ->].
  by repeat split.
Qed.

(** The status ['success'] is only left by an upload that went
    through. *)
Lemma onDrop_success_status network onUpload acceptedFiles s :
  DocumentUpload.uploadStatus
    (final_state (DocumentUpload.onDrop network onUpload acceptedFiles) s) =
    String "success" ->
  exists f response data,
    head acceptedFiles = Some f /\
    network (upload_request (FileObject f)) = Responded response /\
    ok response = true /\ json response = Parsed data.
Proof.
  destruct acceptedFiles as [|f rest]; run; [discriminate|].
  destruct (includes DocumentUpload.allowedTypes (String (type f)));
    [|run; discriminate].
  repeat (run;
    match goal with
    | |- context [match ?a with Rejected _ _ => _ | Responded _ => _ end] =>
        destruct a as [? ?|[[] ?]] eqn:?
    | |- context [match ?j with Parsed _ => _ | Unparsable _ _ => _ end] =>
        destruct j eqn:?
    | |- context [match ?v with Undefined => _ | _ => _ end] =>
        destruct v eqn:?
    | |- context [match ?c with Some _ => _ | None => _ end] =>
        destruct c eqn:?
    | |- context [match ?c with Normal _ => _ | Throw _ => _ end] =>
        destruct c eqn:?
    end); run; intros; try discriminate;
    eexists _, _, _; repeat split; eauto.
Qed.

(** An error to show comes with status [null] or ['error']. *)
Lemma onDrop_error_status network onUpload acceptedFiles s :
  truthy (DocumentUpload.error
            (final_state
               (DocumentUpload.onDrop network onUpload acceptedFiles) s)) =
    true ->
  DocumentUpload.uploadStatus
    (final_state (DocumentUpload.onDrop network onUpload acceptedFiles) s) =
    Null \/
  DocumentUpload.uploadStatus
    (final_state (DocumentUpload.onDrop network onUpload acceptedFiles) s) =
    String "error".
Proof.
  destruct acceptedFiles as [|f rest]; run; [discriminate|].
  destruct (includes DocumentUpload.allowedTypes (String (type f)));
    [|run; auto].
  repeat (run;
    match goal with
    | |- context [match ?a with Rejected _ _ => _ | Responded _ => _ end] =>
        destruct a as [? ?|[[] ?]] eqn:?
    | |- context [match ?j with Parsed _ => _ | Unparsable _ _ => _ end] =>
        destruct j eqn:?
    | |- context [match ?v with Undefined => _ | _ => _ end] =>
        destruct v eqn:?
    | |- context [match ?c with Some _ => _ | None => _ end] =>
        destruct c eqn:?
    | |- context [match ?c with Normal _ => _ | Throw _ => _ end] =>
        destruct c eqn:?
    end); run; intros; try discriminate; auto.
Qed.

End PageAndViews.
(** * Drops that overlap *)

Section OverlappingDrops.
Context {E : JS.Engine}.
Import JS React.

Ltac run :=
  cbv beta iota zeta delta
    [completion final_state effects
     DocumentUpload.onDrop DocumentUpload.setError
     DocumentUpload.setUploadStatus DocumentUpload.error
     DocumentUpload.uploadStatus
     Drops.begin Drops.resume Drops.proceed Drops.uninterrupted Drops.catch
     Drops.still_waiting
     bind modify get throw ret emit fetch try_catch try_finally first call
     response_json new_Error TypeError json ok fst snd negb
     String.eqb Ascii.eqb Bool.eqb
     upload_request].

Ltac crunch :=
  repeat (run;
    match goal with
    | |- context [match ?a with Rejected _ _ => _ | Responded _ => _ end] =>
        destruct a as [? ?|[[] ?]] eqn:?
    | |- context [match ?j with Parsed _ => _ | Unparsable _ _ => _ end] =>
        destruct j eqn:?
    | |- context [match ?v with Undefined => _ | _ => _ end] =>
        destruct v eqn:?
    | |- context [match ?c with Some _ => _ | None => _ end] =>
        destruct c eqn:?
    | |- context [match ?c with Normal _ => _ | Throw _ => _ end] =>
        destruct c eqn:?
    end);
  run.

(** One call of [onDrop] with nothing in between is the handler run as
    a whole. *)
Lemma onDrop_is_uninterrupted network onUpload acceptedFiles s t :
  Drops.uninterrupted network onUpload acceptedFiles s t =
  DocumentUpload.onDrop network onUpload acceptedFiles s t.
Proof.
  destruct acceptedFiles as [|f rest]; run; [reflexivity|].
  destruct (includes DocumentUpload.allowedTypes (String (type f)));
    crunch; reflexivity.
Qed.

Lemma after_snoc network onUpload events e p :
  Drops.after network onUpload (events ++ [e]) p =
  Drops.perform network onUpload e (Drops.after network onUpload events p).
Proof. unfold Drops.after. by rewrite foldl_snoc. Qed.

(** What a waiting call has behind it stays behind it. *)
Lemma backed_more network t extra k :
  Drops.backed network t k -> Drops.backed network (t ++ extra) k.
Proof.
  destruct k as [request|response|response]; simpl; [| done |].
  - intros H. apply elem_of_app. by left.
  - intros (request & Hin & Hnet & Hok). exists request.
    split; [|done]. apply elem_of_app. by left.
Qed.

Lemma fallback_truthy a :
  truthy (or a (String "Failed to upload file. Please try again.")) = true.
Proof. unfold or. by destruct (truthy a) eqn:Ha. Qed.

(** A step keeps the drop zone consistent. *)
Lemma perform_consistent network onUpload e p :
  Drops.consistent network p ->
  Drops.consistent network (Drops.perform network onUpload e p).
Proof.
  intros (Hstatus & Herror & Hshown & Hsuccess & Hwaiting).
  destruct p as [[status error] waiting seen]. simpl in *.
  destruct e as [acceptedFiles|i]; unfold Drops.perform; simpl.
  - destruct acceptedFiles as [|f rest]; run.
    + repeat split; simpl; auto; try discriminate.
      intros k Hk. rewrite app_nil_r in Hk. auto.
    + destruct (includes DocumentUpload.allowedTypes (String (type f)));
        run; repeat split; simpl; auto; try discriminate.
      * intros k Hk. apply elem_of_app in Hk as [Hk|Hk].
        -- by apply backed_more, Hwaiting.
        -- apply list_elem_of_singleton in Hk as ->. simpl.
           apply elem_of_app. right. by left.
      * intros k Hk. rewrite app_nil_r in Hk. auto.
  - destruct (waiting !! i) as [k|] eqn:Hi; [|by repeat split].
    pose proof (take_drop_middle _ _ _ Hi) as Hsplit.
    assert (Hk : Drops.backed network seen k).
    { apply Hwaiting. by eapply list_elem_of_lookup_2. }
    assert (Hrest : forall extra k',
              k' ∈ take i waiting ++ drop (S i) waiting ->
              Drops.backed network (seen ++ extra) k').
    { intros extra k' Hin. apply backed_more, Hwaiting.
      rewrite <- Hsplit. apply elem_of_app in Hin as [Hin|Hin];
        apply elem_of_app; [by left|right; by right]. }
    assert (Hrest0 : forall k',
              k' ∈ take i waiting ++ [] ++ drop (S i) waiting ->
              Drops.backed network seen k').
    { intros k' Hin. rewrite <- (app_nil_r seen). by apply Hrest. }
    clear Hsplit Hi Hwaiting.
    destruct k as [request|response|response]; simpl in Hk.
    + crunch; unfold Drops.consistent; simpl;
        repeat split; simpl; auto using fallback_truthy; try discriminate.
      all: intros k' Hin; rewrite elem_of_app in Hin; simpl in Hin;
        rewrite elem_of_cons in Hin;
        destruct Hin as [Hin|[->|Hin]];
        [apply Hrest0, elem_of_app; by left
        |simpl; eauto
        |apply Hrest0; apply elem_of_app; by right].
    + crunch; unfold Drops.consistent; simpl;
        repeat split; simpl; auto using fallback_truthy; try discriminate.
    + destruct Hk as (request & Hsent & Hnet & Hok).
      crunch; unfold Drops.consistent; simpl;
        repeat split; simpl; auto using fallback_truthy; try discriminate.
      all: try (intros k' Hin; by apply backed_more, Hrest0).
      all: try (intros _; exists request; split;
                [try (apply elem_of_app; left); done
                |by eexists _, _]).
Qed.

(** The drop zone is consistent after any steps from its start. *)
Lemma after_consistent network onUpload events :
  Drops.consistent network
    (Drops.after network onUpload events Drops.opening).
Proof.
  induction events as [|e events IH] using rev_ind.
  - repeat split; simpl; auto; try discriminate.
    intros k Hk. by apply elem_of_nil in Hk.
  - rewrite after_snoc. by apply perform_consistent.
Qed.

(** X4: the status of the drop zone, however drops overlap. Take any
    succession of drops and of waiting calls going on, from the mounting
    of the component; between any two steps the status is one of [null],
    ['uploading'], ['success'] and ['error']; status ['error'] comes with
    an error to show; the error is [null] or a value that shows; and the
    status is ['success'] only if a request sent before was answered ok
    with a body that parsed. *)
Theorem overlapping_drops_keep_the_status network onUpload events :
  let p := Drops.after network onUpload events Drops.opening in
  let s := Drops.state p in
  (DocumentUpload.uploadStatus s = Null \/
   DocumentUpload.uploadStatus s = String "uploading" \/
   DocumentUpload.uploadStatus s = String "success" \/
   DocumentUpload.uploadStatus s = String "error") /\
  (DocumentUpload.uploadStatus s = String "error" ->
   truthy (DocumentUpload.error s) = true) /\
  (DocumentUpload.error s = Null \/
   truthy (DocumentUpload.error s) = true) /\
  (DocumentUpload.uploadStatus s = String "success" ->
   exists request response data,
     Fetch request ∈ Drops.seen p /\
     network request = Responded response /\ ok response = true /\
     json response = Parsed data).
Proof.
  intros p s.
  destruct (after_consistent network onUpload events)
    as (Hstatus & Herror & Hshown & Hsuccess & _).
  fold p in Hstatus, Herror, Hshown, Hsuccess. fold s in Hstatus, Herror, Hshown, Hsuccess.
  repeat split; try done.
  intros Hs. destruct (Hsuccess Hs) as (request & Hin & response & data & H).
  by exists request, response, data.
Qed.

(** A drop of an accepted file sends its request and waits. *)
Lemma perform_dropped_accepted network onUpload f rest p :
  includes DocumentUpload.allowedTypes (String (type f)) = true ->
  Drops.perform network onUpload (Drops.Dropped (f :: rest)) p =
    {| Drops.state :=
         {| DocumentUpload.uploadStatus := String "uploading";
            DocumentUpload.error := Null |};
       Drops.waiting :=
         Drops.waiting p ++
           [Drops.AwaitResponse (upload_request (FileObject f))];
       Drops.seen :=
         Drops.seen p ++ [Fetch (upload_request (FileObject f))] |}.
Proof. intros Hin. unfold Drops.perform. run. rewrite Hin. reflexivity. Qed.

(** A drop of a file of another type ends at once, with the message. *)
Lemma perform_dropped_refused network onUpload g rest p :
  includes DocumentUpload.allowedTypes (String (type g)) = false ->
  Drops.perform network onUpload (Drops.Dropped (g :: rest)) p =
    {| Drops.state :=
         {| DocumentUpload.uploadStatus := Null;
            DocumentUpload.error :=
              String
                "Invalid file type. Please upload PDF, JSON, or TXT files only." |};
       Drops.waiting := Drops.waiting p;
       Drops.seen := Drops.seen p |}.
Proof.
  intros Hin. unfold Drops.perform. run. rewrite Hin. run.
  by rewrite app_nil_r.
Qed.

(** The call that started last goes on. *)
Lemma perform_settled_last network onUpload ws k s t :
  Drops.perform network onUpload (Drops.Settled (length ws))
    {| Drops.state := s; Drops.waiting := ws ++ [k]; Drops.seen := t |} =
    let '(c, s', t') := Drops.resume network onUpload k s t in
    {| Drops.state := s';
       Drops.waiting := ws ++ Drops.still_waiting c;
       Drops.seen := t' |}.
Proof.
  unfold Drops.perform. simpl.
  rewrite list_lookup_middle by done.
  rewrite take_app_length.
  rewrite drop_ge by (rewrite length_app; simpl; lia).
  destruct (Drops.resume network onUpload k s t) as [[c s'] t'].
  by rewrite app_nil_r.
Qed.

(** X13: the success message and the error message of the drop zone.
    After a call of [onDrop] that ran from start to end with no other
    step in between, the success message is on the screen only if the
    upload of the first file was answered ok with a body that parsed, and
    never together with the error message. With drops that overlap the two
    do come together: a file of an accepted type is dropped, a file of
    another type is dropped while the upload is awaited, and the upload is
    then answered ok; the refused drop has left its message, the upload
    sets the status to ['success'], and both are shown. *)
Theorem success_and_error_message network onUpload isDragActive :
  (forall acceptedFiles s,
     let view :=
       DocumentUploadView.render isDragActive
         (final_state (Drops.uninterrupted network onUpload acceptedFiles) s)
     in
     (has_class "success-message" view = true ->
      exists f response data,
        head acceptedFiles = Some f /\
        network (upload_request (FileObject f)) = Responded response /\
        ok response = true /\ json response = Parsed data) /\
     has_class "success-message" view && has_class "error-message" view =
       false) /\
  (forall f rest g others response data p,
     includes DocumentUpload.allowedTypes (String (type f)) = true ->
     includes DocumentUpload.allowedTypes (String (type g)) = false ->
     network (upload_request (FileObject f)) = Responded response ->
     ok response = true ->
     json response = Parsed data ->
     (forall callback, onUpload = Some callback -> callback data = Normal tt) ->
     let n := length (Drops.waiting p) in
     let q :=
       Drops.after network onUpload
         [Drops.Dropped (f :: rest); Drops.Dropped (g :: others);
          Drops.Settled n; Drops.Settled n] p in
     Drops.state q =
       {| DocumentUpload.uploadStatus := String "success";
          DocumentUpload.error :=
            String
              "Invalid file type. Please upload PDF, JSON, or TXT files only." |} /\
     Drops.waiting q = Drops.waiting p /\
     has_class "success-message"
       (DocumentUploadView.render isDragActive (Drops.state q)) = true /\
     has_class "error-message"
       (DocumentUploadView.render isDragActive (Drops.state q)) = true).
Proof.
  split.
  - intros acceptedFiles s view. subst view.
    assert (Hsame :
      final_state (Drops.uninterrupted network onUpload acceptedFiles) s =
      final_state (DocumentUpload.onDrop network onUpload acceptedFiles) s)
      by (unfold final_state; by rewrite onDrop_is_uninterrupted).
    rewrite Hsame.
    destruct (DocumentUploadView_shows isDragActive
                (final_state
                   (DocumentUpload.onDrop network onUpload acceptedFiles) s))
      as [-> ->].
    split.
    + intros Hsuccess. apply (onDrop_success_status network onUpload _ s).
      destruct (DocumentUpload.uploadStatus _); try discriminate.
      simpl in Hsuccess. apply String.eqb_eq in Hsuccess. by subst.
    + destruct (truthy (DocumentUpload.error _)) eqn:Herror;
        [|apply andb_false_r].
      rewrite andb_true_r.
      destruct (onDrop_error_status network onUpload acceptedFiles s Herror)
        as [-> | ->]; reflexivity.
  - intros f rest g others response data p Hf Hg Hnet Hok Hjson Hcb n q.
    assert (Hq : exists t,
      q = {| Drops.state :=
               {| DocumentUpload.uploadStatus := String "success";
                  DocumentUpload.error :=
                    String
                      "Invalid file type. Please upload PDF, JSON, or TXT files only." |};
             Drops.waiting := Drops.waiting p;
             Drops.seen := t |}).
    { subst q n. unfold Drops.after. cbn [foldl].
      rewrite (perform_dropped_accepted network onUpload f rest p Hf).
      rewrite (perform_dropped_refused network onUpload g others _ Hg).
      cbn [Drops.waiting Drops.seen].
      rewrite perform_settled_last.
      unfold Drops.resume at 1. rewrite Hnet, Hok. run.
      rewrite perform_settled_last.
      destruct response as [o j]. simpl in Hok, Hjson. subst o j. run.
      destruct onUpload as [callback|]; run.
      - rewrite (Hcb callback eq_refl). rewrite app_nil_r.
        eexists. reflexivity.
      - rewrite app_nil_r. eexists. reflexivity. }
    destruct Hq as [t Hq]. rewrite Hq. cbn [Drops.state Drops.waiting].
    split; [reflexivity|]. split; [reflexivity|].
    destruct (DocumentUploadView_shows isDragActive
                {| DocumentUpload.uploadStatus := String "success";
                   DocumentUpload.error :=
                     String
                       "Invalid file type. Please upload PDF, JSON, or TXT files only." |})
      as [-> ->].
    split; reflexivity.
Qed.

End OverlappingDrops.

(** ** The further statements at concrete inputs *)

Section MoreFrontEndExamples.
Import JS React Examples MoreExamples.
Existing Instance engine.

Lemma drop_success_witness :
  DocumentUpload.onDrop accepting (Some parent) [report_pdf; notes_txt]
    DocumentUpload.initial [] =
    (Normal tt,
     {| DocumentUpload.uploadStatus := String "success";
        DocumentUpload.error := Null |},
     [Fetch (upload_request (FileObject report_pdf));
      OnUpload (Object [("analysis", String "Invoice");
                        ("response", String "stored")])]).
Proof.
  apply (drop_success accepting (Some parent) report_pdf [notes_txt]
           DocumentUpload.initial
           {| ok := true;
              json := Parsed (Object [("analysis", String "Invoice");
                                      ("response", String "stored")]) |}).
  - reflexivity.
  - reflexivity.
  - reflexivity.
  - reflexivity.
  - intros callback [= <-]. reflexivity.
Defined.

(** The refusing back end's own words reach the user. *)
Lemma drop_error_text_witness :
  final_state (DocumentUpload.onDrop refusing (Some parent) [report_pdf])
    DocumentUpload.initial =
    {| DocumentUpload.uploadStatus := String "error";
       DocumentUpload.error := String "No file uploaded" |}.
Proof.
  exact (drop_error_text refusing (Some parent) report_pdf []
           DocumentUpload.initial eq_refl).
Defined.

Lemma drop_parent_throws_witness :
  DocumentUpload.onDrop accepting (Some failing_parent) [report_pdf]
    DocumentUpload.initial [] =
    (Normal tt,
     {| DocumentUpload.uploadStatus := String "error";
        DocumentUpload.error := String "Cannot show the analysis" |},
     [Fetch (upload_request (FileObject report_pdf));
      OnUpload (Object [("analysis", String "Invoice");
                        ("response", String "stored")])]).
Proof.
  apply (drop_parent_throws accepting failing_parent report_pdf []
           DocumentUpload.initial
           {| ok := true;
              json := Parsed (Object [("analysis", String "Invoice");
                                      ("response", String "stored")]) |}
           (Object [("analysis", String "Invoice");
                    ("response", String "stored")])
           (Error "Error" "Cannot show the analysis"));
    reflexivity.
Defined.

Lemma handleUpload_shows_the_body_witness :
  App.analysis
    (final_state (App.handleUpload (Object [("analysis", String "Invoice")]))
       App.initial) = String "Invoice" /\
  App.response
    (final_state (App.handleUpload (Object [("analysis", String "Invoice")]))
       App.initial) = Undefined.
Proof.
  destruct (handleUpload_shows_the_body
              (Object [("analysis", String "Invoice")]) App.initial
              App.initial) as (_ & Hbody & _).
  exact (Hbody eq_refl).
Defined.

(** A file of another type dropped in front of a back end that would
    accept it, and an upload the back end refuses: [App] stays at its
    start. *)
Lemma failed_drop_leaves_App_untouched_witness :
  Page.app (Page.drop accepting [setup_exe] start).1.2 = App.initial /\
  Page.app (Page.drop refusing [report_pdf] start).1.2 = App.initial.
Proof.
  split.
  - apply (failed_drop_leaves_App_untouched accepting [setup_exe] start).
    intros f response data [= <-] Htype. discriminate Htype.
  - apply (failed_drop_leaves_App_untouched refusing [report_pdf] start).
    intros f response data _ _ [= <-] Hok. discriminate Hok.
Defined.

(** The body [null]: success in the drop zone, an error in [App]. *)
Lemma drop_reaches_App_witness :
  has_class "success-message"
    (DocumentUploadView.render false
       (Page.upload (Page.drop answering_null [report_pdf] start).1.2)) =
    true /\
  has_element "Button"
    (AppView.render
       (Page.app (Page.drop answering_null [report_pdf] start).1.2)) = true.
Proof.
  destruct (drop_reaches_App answering_null report_pdf [] start
              {| ok := true; json := Parsed Null |} Null false
              eq_refl eq_refl eq_refl eq_refl)
    as (_ & _ & _ & Hsuccess & _ & Hbutton & _).
  split; [exact Hsuccess|exact Hbutton].
Defined.

(** A program dropped while the upload of a report is awaited: both
    messages are on the screen once the upload is answered. *)
Lemma success_and_error_message_witness :
  has_class "success-message"
    (DocumentUploadView.render false
       (Drops.state
          (Drops.after accepting (Some parent)
             [Drops.Dropped [report_pdf]; Drops.Dropped [setup_exe];
              Drops.Settled 0; Drops.Settled 0] Drops.opening))) = true /\
  has_class "error-message"
    (DocumentUploadView.render false
       (Drops.state
          (Drops.after accepting (Some parent)
             [Drops.Dropped [report_pdf]; Drops.Dropped [setup_exe];
              Drops.Settled 0; Drops.Settled 0] Drops.opening))) = true.
Proof.
  destruct (success_and_error_message accepting (Some parent) false)
    as [_ Hoverlap].
  destruct (Hoverlap report_pdf [] setup_exe []
              {| ok := true;
                 json := Parsed (Object [("analysis", String "Invoice");
                                         ("response", String "stored")]) |}
              (Object [("analysis", String "Invoice");
                       ("response", String "stored")])
              Drops.opening eq_refl eq_refl eq_refl eq_refl eq_refl)
    as (_ & _ & Hsuccess & Herror).
  - intros callback [= <-]. reflexivity.
  - split; [exact Hsuccess|exact Herror].
Defined.

End MoreFrontEndExamples.
